(** * bonk-bot-tele: the per-user wallet, reveal and transfer state of the bot

    A shallow embedding of [index.ts], [src/handlers/wallet.ts],
    [src/services/solana.ts] and [src/utils/helpers.ts].

    The three global records [USERS], [PENDING_DELETIONS] and
    [PENDING_TRANSACTIONS] are finite maps keyed by the user id string.
    Handlers are written in a small monad carrying the shared state, the
    trace of transport and console calls, and JavaScript exceptions
    ([try]/[catch]/[finally]).  The answer of every awaited external call
    (RPC node, Telegram, entropy source, clock) is an argument of the
    handler that awaits it.

    User ids are the decimal strings the routes match with [(\d+)] and
    that [ctx.from.id.toString()] yields.  A call on the context whose
    promise a handler returns without awaiting it ([answerCbQuery],
    [editMessageText], [reply], the final [sendMessage]) is recorded in the
    trace; its rejection would reach no [catch] of the handler and touches
    none of the three records, and is not modelled. *)

From Stdlib Require Import ZArith QArith String List.
From stdpp Require Import base option list gmap strings.

Local Open Scope string_scope.
Local Open Scope Z_scope.
Local Open Scope list_scope.

(** ** JavaScript numbers

    Only comparisons are performed on amounts and balances, so a number is
    the value of the double: NaN, an infinity, or a rational. *)

Inductive number : Type :=
| NaN
| NegInf
| Fin (q : Q)
| PosInf.

Definition isNaN (x : number) : bool :=
  match x with NaN => true | _ => false end.

(** [a < b] of JavaScript: false as soon as one side is NaN. *)
Definition num_lt (a b : number) : bool :=
  match a, b with
  | NaN, _ | _, NaN => false
  | PosInf, _ => false
  | _, NegInf => false
  | NegInf, _ => true
  | _, PosInf => true
  | Fin x, Fin y => negb (Qle_bool y x)
  end.

(** [a <= b] of JavaScript. *)
Definition num_le (a b : number) : bool :=
  match a, b with
  | NaN, _ | _, NaN => false
  | NegInf, _ => true
  | _, PosInf => true
  | PosInf, _ => false
  | _, NegInf => false
  | Fin x, Fin y => Qle_bool x y
  end.

Definition zero : number := Fin 0.

(** ** Data of [src/types.ts] *)

Record Error : Type := mkError { message : string }.

(** What a call that may throw gives back. *)
Inductive Res (A : Type) : Type :=
| Ok (a : A)
| Throw (e : Error).
Arguments Ok {A} a.
Arguments Throw {A} e.

Record Keypair : Type := mkKeypair {
  publicKey : string;            (* base58 *)
  secretKey : list Byte.byte
}.

Record BalanceInfo : Type := mkBalanceInfo {
  balance : number;
  lamports : Z
}.

(** A value of [PendingTransactions]. *)
Record Transfer : Type := mkTransfer {
  recipientAddress : string;
  amount : number;
  timestamp : Z
}.

(** A callback scheduled by [setTimeout] in [handleExportPrivateKey]: the
    closure keeps the user id and the id of the message to delete;
    [handle] is the [NodeJS.Timeout] stored in [PENDING_DELETIONS]. *)
Record Timer : Type := mkTimer {
  handle : nat;
  t_userId : string;
  t_message_id : Z
}.

Record State : Type := mkState {
  USERS : gmap string Keypair;
  PENDING_DELETIONS : gmap string nat;
  PENDING_TRANSACTIONS : gmap string Transfer;
  timers : list Timer;           (* callbacks the runtime still has to fire *)
  nextTimer : nat                (* the next fresh timeout handle *)
}.

Definition initial : State :=
  {| USERS := ∅; PENDING_DELETIONS := ∅; PENDING_TRANSACTIONS := ∅;
     timers := []; nextTimer := 0%nat |}.

Definition set_USERS (f : gmap string Keypair → gmap string Keypair) (s : State) : State :=
  {| USERS := f (USERS s); PENDING_DELETIONS := PENDING_DELETIONS s;
     PENDING_TRANSACTIONS := PENDING_TRANSACTIONS s;
     timers := timers s; nextTimer := nextTimer s |}.

Definition set_PENDING_DELETIONS (f : gmap string nat → gmap string nat) (s : State) : State :=
  {| USERS := USERS s; PENDING_DELETIONS := f (PENDING_DELETIONS s);
     PENDING_TRANSACTIONS := PENDING_TRANSACTIONS s;
     timers := timers s; nextTimer := nextTimer s |}.

Definition set_PENDING_TRANSACTIONS
    (f : gmap string Transfer → gmap string Transfer) (s : State) : State :=
  {| USERS := USERS s; PENDING_DELETIONS := PENDING_DELETIONS s;
     PENDING_TRANSACTIONS := f (PENDING_TRANSACTIONS s);
     timers := timers s; nextTimer := nextTimer s |}.

Definition set_timers (f : list Timer → list Timer) (s : State) : State :=
  {| USERS := USERS s; PENDING_DELETIONS := PENDING_DELETIONS s;
     PENDING_TRANSACTIONS := PENDING_TRANSACTIONS s;
     timers := f (timers s); nextTimer := nextTimer s |}.

(** ** What the handlers send

    One constructor per message template of the source; the interpolated
    values are the arguments. *)

Inductive Message : Type :=
| WalletExists                       (* "Wallet already exists!" *)
| WalletGenerated (address : string) (b : BalanceInfo) (mnemonic : string)
                                     (* "Wallet Generated Successfully!" ... "Recovery Phrase (12 words)" *)
| NoWallet                           (* "No wallet found! Please generate a wallet first." *)
| PrivateKeyWait                     (* "You already have a private key message that will be deleted soon. ..." *)
| PrivateKey (secret : list Byte.byte)
                                     (* "Your Private Key" ... "This message will self-delete in 30 seconds" *)
| InvalidFormat                      (* "Invalid format. Please use: <address> <amount>" *)
| InvalidAmount                      (* "Invalid amount. Please enter a valid number greater than 0." *)
| AlreadyPending                     (* "You already have a pending transaction. Please complete or cancel it first." *)
| InsufficientTried (observed tried : number)
                                     (* "Insufficient balance. You have ${balance} SOL, but tried to send ${amount} SOL." *)
| ConfirmTransfer (amt : number) (recipient : string) (observed : number)
                                     (* "Confirm SOL Transfer" with the Confirm / Cancel buttons *)
| InvalidRecipientRetry              (* "Invalid recipient address. Please check the address and try again." *)
| InvalidTransactionFormat           (* "Invalid transaction format. Please try again." *)
| TransactionExpired                 (* "Transaction expired or invalid." *)
| InsufficientBalance (observed : number)
                                     (* "Insufficient balance. You have ${balance} SOL." *)
| SolSent (amt : number) (recipient : string) (signature : string)
                                     (* "SOL Sent Successfully!" with the signature *)
| InvalidRecipient                   (* "Invalid recipient address." *)
| FailedToSend                       (* "Failed to send SOL. Please try again." *)
| TransactionCancelled.              (* "Transaction Cancelled" ... "You can start a new transfer anytime." *)

(** Calls on the Telegram context and on the console, in program order. *)
Inductive Effect : Type :=
| answerCbQuery (text : option string)
| sendMessage (text : Message) (kbUser : string) (kbHasWallet : bool)
| reply (text : Message)
| editMessageText (text : Message)
| deleteMessage (message_id : Z)
| console_log (line : string) (userId : string)
| console_error (label : string) (e : Error).

(** ** The handler monad: shared state, trace, exceptions *)

Definition M (A : Type) : Type := State → Res A * State * list Effect.

Definition ret {A} (a : A) : M A := fun s => (Ok a, s, []).

Definition throw {A} (e : Error) : M A := fun s => (Throw e, s, []).

Definition bind {A B} (m : M A) (k : A → M B) : M B :=
  fun s =>
    match m s with
    | (Ok a, s1, t1) =>
        match k a s1 with
        | (r, s2, t2) => (r, s2, t1 ++ t2)
        end
    | (Throw e, s1, t1) => (Throw e, s1, t1)
    end.

Notation "x <- m ;; k" := (bind m (fun x => k))
  (at level 100, m at next level, right associativity).
Notation "m ;; k" := (bind m (fun _ => k))
  (at level 100, right associativity).

(** [try { m } catch (error) { h error }] *)
Definition try_catch {A} (m : M A) (h : Error → M A) : M A :=
  fun s =>
    match m s with
    | (Ok a, s1, t1) => (Ok a, s1, t1)
    | (Throw e, s1, t1) =>
        match h e s1 with
        | (r, s2, t2) => (r, s2, t1 ++ t2)
        end
    end.

(** [try { m } finally { f }]: [f] runs on both exits and the exit of [m]
    is kept unless [f] itself throws. *)
Definition try_finally {A} (m : M A) (f : M unit) : M A :=
  fun s =>
    match m s with
    | (r, s1, t1) =>
        match f s1 with
        | (Ok _, s2, t2) => (r, s2, t1 ++ t2)
        | (Throw e, s2, t2) => (Throw e, s2, t1 ++ t2)
        end
    end.

Definition get : M State := fun s => (Ok s, s, []).

Definition modify (f : State → State) : M unit := fun s => (Ok tt, f s, []).

Definition emit (e : Effect) : M unit := fun s => (Ok tt, s, [e]).

(** The settled value of an awaited promise. *)
Definition await {A} (r : Res A) : M A := fun s => (r, s, []).

Definition run_state {A} (m : M A) (s : State) : State := snd (fst (m s)).
Definition run_trace {A} (m : M A) (s : State) : list Effect := snd (m s).
Definition run_result {A} (m : M A) (s : State) : Res A := fst (fst (m s)).

(** [String.prototype.includes]. *)
Fixpoint includes (needle hay : string) : bool :=
  String.prefix needle hay
  || match hay with
     | EmptyString => false
     | String _ rest => includes needle rest
     end.

(** ** Collaborators that are not part of the repository

    [parseFloat] is the JavaScript builtin; [newPublicKey s] is
    [new PublicKey(s)] of @solana/web3.js, which throws on a malformed
    address; [lamportsToSol l] is the double [l / LAMPORTS_PER_SOL];
    [keypairFromMnemonic] is [bip39.mnemonicToSeed] followed by
    [Keypair.fromSeed] on the first 32 bytes of the seed. *)

Record Env : Type := mkEnv {
  parseFloat : string → number;
  newPublicKey : string → Res unit;
  lamportsToSol : Z → number;
  keypairFromMnemonic : string → Keypair
}.

Section Bot.

Variable env : Env.

(** *** [src/services/solana.ts] *)

(** [SolanaService.getBalance]; [rpc] is what [connection.getBalance]
    settles to. *)
Definition getBalance (rpc : Res Z) : M BalanceInfo :=
  try_catch
    (l <- await rpc ;;
     ret {| balance := lamportsToSol env l; lamports := l |})
    (fun error =>
       emit (console_error "Error fetching balance:" error) ;;
       throw (mkError "Failed to fetch balance. Please try again later.")).

(** [SolanaService.sendSOL]; [rpc] is what [sendAndConfirmTransaction]
    settles to. *)
Definition sendSOL (rpc : Res string) : M string :=
  try_catch
    (signature <- await rpc ;; ret signature)
    (fun error =>
       emit (console_error "Error sending SOL:" error) ;;
       throw (mkError "Failed to send SOL. Please check your balance and try again.")).

(** *** [src/utils/helpers.ts] *)

Definition hasWallet (userId : string) (users : gmap string Keypair) : bool :=
  match users !! userId with Some _ => true | None => false end.

Definition validateUserId (userId : option string) : bool :=
  match userId with
  | Some s => Nat.ltb 0 (String.length s)
  | None => false
  end.

Definition sendMessageWithKeyboard (text : Message) (userId : string) : M unit :=
  s <- get ;;
  emit (sendMessage text userId (hasWallet userId (USERS s))).

Definition handleError (error : Error) (action : string) : M unit :=
  emit (console_error ("Error in " +:+ action +:+ " handler:") error) ;;
  emit (answerCbQuery (Some "Something went wrong!")).

(** [if (!validateUserId(userId)) return invalid; body(userId)]: past the
    guard [userId] is a string. *)
Definition guardUserId (userId : option string) (invalid : M unit)
    (body : string → M unit) : M unit :=
  match userId with
  | Some u => if validateUserId userId then body u else invalid
  | None => invalid
  end.

(** *** [src/handlers/wallet.ts] *)

(** [entropy] is the result of [bip39.generateMnemonic(128)], [rpc] the
    answer of the node to the balance query. *)
Definition handleGenerateWallet (userId : option string)
    (entropy : Res string) (rpc : Res Z) : M unit :=
  try_catch
    (guardUserId userId (emit (answerCbQuery (Some "User ID not found!")))
       (fun userId =>
          emit (answerCbQuery (Some "Generating wallet...")) ;;
          s <- get ;;
          if hasWallet userId (USERS s) then
            sendMessageWithKeyboard WalletExists userId
          else
            mnemonic <- await entropy ;;
            let keypair := keypairFromMnemonic env mnemonic in
            modify (set_USERS (insert userId keypair)) ;;
            let publicKey := publicKey keypair in
            balance <- getBalance rpc ;;
            sendMessageWithKeyboard
              (WalletGenerated publicKey balance mnemonic) userId))
    (fun error => handleError error "generate_wallet").

(** [setTimeout(callback, 30000)]: the runtime keeps the callback and hands
    back a fresh handle. *)
Definition setTimeout (userId : string) (message_id : Z) : M nat :=
  s <- get ;;
  let h := nextTimer s in
  modify (fun s =>
    {| USERS := USERS s; PENDING_DELETIONS := PENDING_DELETIONS s;
       PENDING_TRANSACTIONS := PENDING_TRANSACTIONS s;
       timers := timers s ++ [mkTimer h userId message_id];
       nextTimer := S h |}) ;;
  ret h.

(** [sent] is what [ctx.sendMessage] of the key-bearing message settles to:
    the id of the sent message, or a transport error. *)
Definition handleExportPrivateKey (userId : option string) (sent : Res Z) : M unit :=
  try_catch
    (guardUserId userId (ret tt)
       (fun userId =>
          emit (answerCbQuery None) ;;
          s <- get ;;
          match USERS s !! userId with
          | None => sendMessageWithKeyboard NoWallet userId
          | Some keypair =>
              match PENDING_DELETIONS s !! userId with
              | Some _ => sendMessageWithKeyboard PrivateKeyWait userId
              | None =>
                  emit (sendMessage (PrivateKey (secretKey keypair)) userId true) ;;
                  message_id <- await sent ;;
                  h <- setTimeout userId message_id ;;
                  modify (set_PENDING_DELETIONS (insert userId h))
              end
          end))
    (fun error => handleError error "export_private_key").

(** The callback given to [setTimeout]; [deleted] is what
    [ctx.deleteMessage] settles to. *)
Definition deletionCallback (t : Timer) (deleted : Res unit) : M unit :=
  try_finally
    (try_catch
       (emit (deleteMessage (t_message_id t)) ;;
        await deleted ;;
        emit (console_log "Auto-deleted private key message for user" (t_userId t)))
       (fun error =>
          emit (console_error "Failed to delete private key message:" error)))
    (modify (set_PENDING_DELETIONS (delete (t_userId t)))).

(** [rpcBalance] and [rpcSend] are the answers of the node to the balance
    query and to the submission. *)
Definition handleConfirmSendSol (userId : option string)
    (rpcBalance : Res Z) (rpcSend : Res string) : M unit :=
  try_catch
    (guardUserId userId (ret tt)
       (fun userId =>
          emit (answerCbQuery (Some "Processing transaction...")) ;;
          s <- get ;;
          match USERS s !! userId, PENDING_TRANSACTIONS s !! userId with
          | Some senderKeypair, Some tx =>
              let recipientAddress := recipientAddress tx in
              let amount := amount tx in
              try_catch
                (await (newPublicKey env recipientAddress) ;;
                 balanceInfo <- getBalance rpcBalance ;;
                 if num_lt (balance balanceInfo) amount then
                   modify (set_PENDING_TRANSACTIONS (delete userId)) ;;
                   emit (editMessageText (InsufficientBalance (balance balanceInfo)))
                 else
                   signature <- sendSOL rpcSend ;;
                   modify (set_PENDING_TRANSACTIONS (delete userId)) ;;
                   emit (editMessageText (SolSent amount recipientAddress signature)))
                (fun error =>
                   modify (set_PENDING_TRANSACTIONS (delete userId)) ;;
                   emit (console_error "SOL transfer error:" error) ;;
                   if includes "Invalid public key input" (message error) then
                     emit (editMessageText InvalidRecipient)
                   else
                     emit (editMessageText FailedToSend))
          | _, _ => emit (editMessageText TransactionExpired)
          end))
    (fun error => handleError error "confirm_send_sol").

Definition handleCancelSendSol (userId : option string) : M unit :=
  try_catch
    (guardUserId userId (ret tt)
       (fun userId =>
          emit (answerCbQuery (Some "Transaction cancelled")) ;;
          s <- get ;;
          (match PENDING_TRANSACTIONS s !! userId with
           | Some _ => modify (set_PENDING_TRANSACTIONS (delete userId))
           | None => ret tt
           end) ;;
          emit (editMessageText TransactionCancelled)))
    (fun error => handleError error "cancel_send_sol").

(** *** [index.ts]: the text handler

    The handler of [bot.on('text')] suspends three times; the state maps
    are read and written in the synchronous stretches between the awaits.
    A [TextTask] is a handler invocation at one of its suspension points,
    with the locals that are live there. *)

Inductive TextTask : Type :=
| Received (userId : option string) (parts : list string)
    (* not started; [parts] is [ctx.message.text.trim().split(' ')] *)
| AwaitImport (userId recipientAddress : string) (amount : number)
    (* at [await import('@solana/web3.js')] *)
| AwaitBalance (userId recipientAddress : string) (amount : number)
    (senderKeypair : Keypair)
    (* at [await solanaService.getBalance(senderKeypair.publicKey)] *)
| Finished.

(** The inner [catch (error: any)]. *)
Definition onText_catch (error : Error) : M TextTask :=
  emit (console_error "SOL transfer preparation error:" error) ;;
  (if includes "Invalid public key input" (message error) then
     emit (reply InvalidRecipientRetry)
   else
     emit (reply InvalidTransactionFormat)) ;;
  ret Finished.

(** From the start of the handler to the first await: wallet check,
    format and amount validation. *)
Definition onText_begin (userId : option string) (parts : list string) : M TextTask :=
  s <- get ;;
  match userId with
  | None => ret Finished
  | Some userId =>
      if String.eqb userId "" || negb (hasWallet userId (USERS s)) then ret Finished
      else
        match parts with
        | [recipientAddress; amountStr] =>
            if String.eqb recipientAddress "" || String.eqb amountStr "" then
              emit (reply InvalidFormat) ;; ret Finished
            else
              let amount := parseFloat env amountStr in
              if isNaN amount || num_le amount zero then
                emit (reply InvalidAmount) ;; ret Finished
              else ret (AwaitImport userId recipientAddress amount)
        | _ => ret Finished
        end
  end.

(** From the first await to the balance query: address validation, the
    pending check, and the read of the sender keypair. *)
Definition onText_check (userId recipientAddress : string) (amount : number) : M TextTask :=
  try_catch
    (await (newPublicKey env recipientAddress) ;;
     s <- get ;;
     match PENDING_TRANSACTIONS s !! userId with
     | Some _ => emit (reply AlreadyPending) ;; ret Finished
     | None =>
         match USERS s !! userId with
         | Some senderKeypair =>
             ret (AwaitBalance userId recipientAddress amount senderKeypair)
         | None =>
             (* [senderKeypair.publicKey] on undefined *)
             throw (mkError "Cannot read properties of undefined (reading 'publicKey')")
         end
     end)
    onText_catch.

(** From the answer of the balance query to the end: balance check, store
    of the proposal, confirmation message.  [now] is [Date.now()]. *)
Definition onText_commit (userId recipientAddress : string) (amount : number)
    (rpc : Res Z) (now : Z) : M TextTask :=
  try_catch
    (balanceInfo <- getBalance rpc ;;
     if num_lt (balance balanceInfo) amount then
       emit (reply (InsufficientTried (balance balanceInfo) amount)) ;;
       ret Finished
     else
       modify (set_PENDING_TRANSACTIONS
                 (insert userId {| recipientAddress := recipientAddress;
                                   amount := amount;
                                   timestamp := now |})) ;;
       emit (reply (ConfirmTransfer amount recipientAddress (balance balanceInfo))) ;;
       ret Finished)
    onText_catch.

(** One synchronous stretch of a task; [rpc] and [now] are used by the
    stretch that follows the balance query. *)
Definition onText_resume (t : TextTask) (rpc : Res Z) (now : Z) : M TextTask :=
  try_catch
    (match t with
     | Received userId parts => onText_begin userId parts
     | AwaitImport userId recipientAddress amount =>
         onText_check userId recipientAddress amount
     | AwaitBalance userId recipientAddress amount _ =>
         onText_commit userId recipientAddress amount rpc now
     | Finished => ret Finished
     end)
    (fun error =>
       emit (console_error "Text message handling error:" error) ;;
       ret Finished).

(** The handler run without interruption: every await settles before any
    other handler starts. *)
Definition onText (userId : option string) (parts : list string)
    (rpc : Res Z) (now : Z) : M unit :=
  t1 <- onText_resume (Received userId parts) rpc now ;;
  t2 <- onText_resume t1 rpc now ;;
  t3 <- onText_resume t2 rpc now ;;
  ret tt.

(** *** [index.ts]: sweep and shutdown *)

Definition fiveMinutes : Z := 5 * 60 * 1000.

(** The callback of [setInterval(..., 60000)]. *)
Definition sweep (now : Z) : M unit :=
  modify (set_PENDING_TRANSACTIONS
            (filter (fun kv : string * Transfer =>
                       ¬ (fiveMinutes < now - timestamp kv.2)))).

(** [gracefulShutdown]: [clearTimeout] on every value of
    [PENDING_DELETIONS]; the record itself is left as it is. *)
Definition gracefulShutdown : M unit :=
  emit (console_log "Shutting down bot..." "") ;;
  s <- get ;;
  modify (set_timers
            (filter (fun t : Timer =>
                       handle t ∉ (map_to_list (PENDING_DELETIONS s)).*2))).

(** ** The bot as a state machine

    One event per state-changing entry point, with the answers of the
    collaborators it awaits.  Handlers that only read ([handleStart],
    [handleViewAddress], [handleCheckBalance], ...) leave the state alone
    and are not events. *)

Inductive Event : Type :=
| GenerateWallet (userId : option string) (entropy : Res string) (rpc : Res Z)
| ExportPrivateKey (userId : option string) (sent : Res Z)
| Text (userId : option string) (parts : list string) (rpc : Res Z) (now : Z)
| ConfirmSendSol (userId : option string) (rpcBalance : Res Z) (rpcSend : Res string)
| CancelSendSol (userId : option string)
| Sweep (now : Z)
| TimerFires (h : nat) (deleted : Res unit)
| Shutdown.

(** The runtime fires the callback with handle [h] if it is still
    scheduled, and forgets it. *)
Definition fire (h : nat) (deleted : Res unit) : M unit :=
  s <- get ;;
  match List.find (fun t => Nat.eqb (handle t) h) (timers s) with
  | Some t =>
      modify (set_timers (filter (fun t' : Timer => handle t' ≠ h))) ;;
      deletionCallback t deleted
  | None => ret tt
  end.

Definition dispatch (ev : Event) : M unit :=
  match ev with
  | GenerateWallet userId entropy rpc => handleGenerateWallet userId entropy rpc
  | ExportPrivateKey userId sent => handleExportPrivateKey userId sent
  | Text userId parts rpc now => onText userId parts rpc now
  | ConfirmSendSol userId rpcBalance rpcSend =>
      handleConfirmSendSol userId rpcBalance rpcSend
  | CancelSendSol userId => handleCancelSendSol userId
  | Sweep now => sweep now
  | TimerFires h deleted => fire h deleted
  | Shutdown => gracefulShutdown
  end.

Definition step (s : State) (ev : Event) : State := run_state (dispatch ev) s.

(** The states the bot can be in when handlers run one after the other:
    every await of a handler settles before the next handler starts.
    Handlers that overlap at an await reach further states; [Pool] and
    [RevealPool] below run the text handler and the export handler stretch
    by stretch. *)
Inductive reachable : State → Prop :=
| reachable_initial : reachable initial
| reachable_step s ev : reachable s → reachable (step s ev).

(** Running a list of events, collecting the trace. *)
Fixpoint exec (evs : list Event) (s : State) : State * list Effect :=
  match evs with
  | [] => (s, [])
  | ev :: evs' =>
      let '(_, s1, t1) := dispatch ev s in
      let '(s2, t2) := exec evs' s1 in
      (s2, t1 ++ t2)
  end.

End Bot.

(** ** Overlapping text handlers

    Telegraf starts a handler per update and does not wait for the
    previous one: two invocations of the text handler advance stretch by
    stretch, in any order, over the same [PENDING_TRANSACTIONS].  A [Turn]
    names the task that runs its next stretch and what its await settled
    to. *)

Record Turn : Type := mkTurn {
  who : nat;
  settled : Res Z;
  clock : Z
}.

Record Pool : Type := mkPool {
  shared : State;
  tasks : list TextTask;
  output : list (nat * Effect)     (* who made which call *)
}.

Definition turn (env : Env) (p : Pool) (t : Turn) : Pool :=
  match tasks p !! who t with
  | Some task =>
      let '(r, s', tr) := onText_resume env task (settled t) (clock t) (shared p) in
      {| shared := s';
         tasks := <[who t := match r with Ok task' => task' | Throw _ => Finished end]> (tasks p);
         output := output p ++ ((fun e => (who t, e)) <$> tr) |}
  | None => p
  end.

Definition schedule (env : Env) (p : Pool) (ts : list Turn) : Pool :=
  fold_left (turn env) ts p.

(** The calls made by task [i]. *)
Definition output_of (i : nat) (p : Pool) : list Effect :=
  snd <$> filter (fun ie : nat * Effect => ie.1 = i) (output p).

(** ** The state invariant *)

Definition valid_address (env : Env) (a : string) : Prop :=
  newPublicKey env a = Ok tt.

(** A text "<recipient> <amountStr>" that passes the format, amount and
    address validation of the text handler. *)
Definition valid_request (env : Env) (recipient amountStr : string) : Prop :=
  recipient ≠ "" ∧ amountStr ≠ "" ∧
  isNaN (parseFloat env amountStr) = false ∧
  num_le (parseFloat env amountStr) zero = false ∧
  valid_address env recipient.

Record wf (env : Env) (s : State) : Prop := mkWf {
  wf_users : ∀ u, is_Some (USERS s !! u) → u ≠ "";
  wf_transfer : ∀ u tx, PENDING_TRANSACTIONS s !! u = Some tx →
                  is_Some (USERS s !! u) ∧ valid_address env (recipientAddress tx);
  wf_deletion : ∀ u h, PENDING_DELETIONS s !! u = Some h → is_Some (USERS s !! u);
  wf_timer : ∀ t, t ∈ timers s → PENDING_DELETIONS s !! t_userId t = Some (handle t);
  wf_timers : NoDup (t_userId <$> timers s)
}.

(** How many scheduled retractions, how many entries of
    [PENDING_DELETIONS], and how many stored proposals a user has. *)
Definition retractions_of (u : string) (s : State) : nat :=
  length (filter (fun t : Timer => t_userId t = u) (timers s)).

Definition sessions_of (u : string) (s : State) : nat :=
  length (filter (fun kh : string * nat => kh.1 = u)
                 (map_to_list (PENDING_DELETIONS s))).

Definition proposals_of (u : string) (s : State) : nat :=
  length (filter (fun kv : string * Transfer => kv.1 = u)
                 (map_to_list (PENDING_TRANSACTIONS s))).

(** Whether a call shows the recovery phrase to user [u]: only the
    "Wallet Generated Successfully!" message carries it. *)
Definition shows_recovery_phrase (u : string) (e : Effect) : bool :=
  match e with
  | sendMessage (WalletGenerated _ _ _) u' _ => String.eqb u u'
  | _ => false
  end.

(** ** A concrete environment for the examples

    [parseFloat] on the literals used below; addresses are the two
    well-formed base58 keys named here; one SOL is 10^9 lamports. *)

Definition addr1 : string := "9WzDXwBbmkg8ZTbNMqUxvQRAyrZzDsGYdLVL9zYtAWWM".
Definition addr2 : string := "11111111111111111111111111111111".

Definition sample_env : Env :=
  {| parseFloat := fun s =>
       if String.eqb s "0.5" then Fin (1 # 2)
       else if String.eqb s "0.7" then Fin (7 # 10)
       else if String.eqb s "3" then Fin 3
       else if String.eqb s "0" then Fin 0
       else NaN;
     newPublicKey := fun s =>
       if String.eqb s addr1 || String.eqb s addr2 then Ok tt
       else Throw (mkError "Invalid public key input");
     lamportsToSol := fun l => Fin (l # 1000000000);
     keypairFromMnemonic := fun m => mkKeypair ("key of " +:+ m) [] |}.

Definition alice : string := "42".

(** [alice] has generated a wallet. *)
Definition with_wallet : State :=
  step sample_env initial
    (GenerateWallet (Some alice) (Ok "abandon ability able") (Ok 0)).

(** [alice] has a wallet and a pending transfer of 0.5 SOL to [addr1],
    proposed at time 1000 with a balance of 1 SOL. *)
Definition with_proposal : State :=
  step sample_env with_wallet
    (Text (Some alice) [addr1; "0.5"] (Ok 1000000000) 1000).

(** [alice] has a wallet and a private-key message awaiting deletion. *)
Definition with_reveal : State :=
  step sample_env with_wallet (ExportPrivateKey (Some alice) (Ok 7)).

(** Two texts of [alice], handled at the same time: 0.5 SOL to [addr1]
    and 0.7 SOL to [addr2], with a balance of 1 SOL. *)
Definition two_texts : Pool :=
  {| shared := with_wallet;
     tasks := [Received (Some alice) [addr1; "0.5"];
               Received (Some alice) [addr2; "0.7"]];
     output := [] |}.

(** Tasks 0 and 1 advanced in lock step: both pass the pending check
    before either balance query settles.  (Only the turn that follows the
    balance query reads [settled] and [clock].) *)
Definition in_lock_step (rpc0 : Res Z) (now0 : Z) (rpc1 : Res Z) (now1 : Z) : list Turn :=
  [mkTurn 0 rpc0 now0; mkTurn 1 rpc1 now1;
   mkTurn 0 rpc0 now0; mkTurn 1 rpc1 now1;
   mkTurn 0 rpc0 now0; mkTurn 1 rpc1 now1].

Definition overlapping : list Turn :=
  in_lock_step (Ok 1000000000) 1000 (Ok 1000000000) 1001.

(** The first handler ends before the second starts. *)
Definition one_after_the_other : list Turn :=
  [mkTurn 0 (Ok 0) 0; mkTurn 0 (Ok 0) 0; mkTurn 0 (Ok 1000000000) 1000;
   mkTurn 1 (Ok 0) 0; mkTurn 1 (Ok 0) 0; mkTurn 1 (Ok 1000000000) 1001].

(** ** Overlapping export handlers

    [handleExportPrivateKey] suspends once, at
    [await ctx.sendMessage(warningMessage, ...)], between the check of
    [pendingDeletions[userId]] and the store of the timeout.  An
    [ExportTask] is an invocation of the handler before its start, at that
    await, or past its end. *)

Inductive ExportTask : Type :=
| ExportRequested (userId : option string)
| AwaitSent (userId : string)
| ExportDone.

(** From the start of the handler to the call of [ctx.sendMessage]: the
    wallet check, the pending check, and the sending of the key. *)
Definition export_begin (userId : option string) : M ExportTask :=
  match userId with
  | Some u =>
      if validateUserId userId then
        emit (answerCbQuery None) ;;
        s <- get ;;
        match USERS s !! u with
        | None => sendMessageWithKeyboard NoWallet u ;; ret ExportDone
        | Some keypair =>
            match PENDING_DELETIONS s !! u with
            | Some _ => sendMessageWithKeyboard PrivateKeyWait u ;; ret ExportDone
            | None =>
                emit (sendMessage (PrivateKey (secretKey keypair)) u true) ;;
                ret (AwaitSent u)
            end
        end
      else ret ExportDone
  | None => ret ExportDone
  end.

(** From the answer of [ctx.sendMessage] to the end: the timeout is
    scheduled and its handle stored. *)
Definition export_finish (userId : string) (sent : Res Z) : M ExportTask :=
  message_id <- await sent ;;
  h <- setTimeout userId message_id ;;
  modify (set_PENDING_DELETIONS (insert userId h)) ;;
  ret ExportDone.

(** One synchronous stretch of an export; [sent] is used by the stretch
    that follows the await. *)
Definition export_resume (t : ExportTask) (sent : Res Z) : M ExportTask :=
  try_catch
    (match t with
     | ExportRequested userId => export_begin userId
     | AwaitSent userId => export_finish userId sent
     | ExportDone => ret ExportDone
     end)
    (fun error => handleError error "export_private_key" ;; ret ExportDone).

(** Both stretches without interruption. *)
Definition export_uninterrupted (userId : option string) (sent : Res Z) : M unit :=
  t1 <- export_resume (ExportRequested userId) sent ;;
  t2 <- export_resume t1 sent ;;
  ret tt.

Record RevealPool : Type := mkRevealPool {
  reveal_shared : State;
  reveal_tasks : list ExportTask;
  reveal_output : list (nat * Effect)
}.

(** Task [who t] runs its next stretch; [settled t] is what its
    [ctx.sendMessage] settled to. *)
Definition reveal_turn (p : RevealPool) (t : Turn) : RevealPool :=
  match reveal_tasks p !! who t with
  | Some task =>
      let '(r, s', tr) := export_resume task (settled t) (reveal_shared p) in
      {| reveal_shared := s';
         reveal_tasks :=
           <[who t := match r with Ok task' => task' | Throw _ => ExportDone end]>
             (reveal_tasks p);
         reveal_output := reveal_output p ++ ((fun e => (who t, e)) <$> tr) |}
  | None => p
  end.

Definition reveal_schedule (p : RevealPool) (ts : list Turn) : RevealPool :=
  fold_left reveal_turn ts p.

Definition reveal_output_of (i : nat) (p : RevealPool) : list Effect :=
  snd <$> filter (fun ie : nat * Effect => ie.1 = i) (reveal_output p).

(** Two export requests of [alice], handled at the same time; Telegram
    sends the two key messages as messages 7 and 8. *)
Definition two_exports : RevealPool :=
  {| reveal_shared := with_wallet;
     reveal_tasks := [ExportRequested (Some alice); ExportRequested (Some alice)];
     reveal_output := [] |}.

(** Both handlers pass the pending check before either send settles. *)
Definition exports_in_lock_step (sent0 sent1 : Res Z) : list Turn :=
  [mkTurn 0 sent0 0; mkTurn 1 sent1 0; mkTurn 0 sent0 0; mkTurn 1 sent1 0].

(** The first handler ends before the second starts. *)
Definition exports_one_after_the_other (sent0 sent1 : Res Z) : list Turn :=
  [mkTurn 0 sent0 0; mkTurn 0 sent0 0; mkTurn 1 sent1 0; mkTurn 1 sent1 0].

(** The state after the two overlapping exports of [alice]. *)
Definition after_two_exports : State :=
  reveal_shared (reveal_schedule two_exports (exports_in_lock_step (Ok 7) (Ok 8))).

(** What [with_proposal] holds for [alice]. *)
Definition half_sol_to_addr1 : Transfer :=
  {| recipientAddress := addr1; amount := Fin (1 # 2); timestamp := 1000 |}.

(** ** More of [src/utils/helpers.ts], [index.ts] and the services

    The inline keyboard, the routes that receive its callbacks, the
    splitting of a text into parts, the abbreviated signature, and the two
    handlers that report on [USERS]. *)

Record Button : Type := mkButton {
  label : string;
  callback_data : string
}.

(** [Markup.button.callback(label, `${action}:${userId}`)] *)
Definition callback (label action userId : string) : Button :=
  mkButton label (action +:+ ":" +:+ userId).

(** [getKeyboard] of [src/utils/helpers.ts]: the rows of buttons. *)
Definition getKeyboard (userId : string) (userHasWallet : bool) : list (list Button) :=
  (if userHasWallet then []
   else [[callback "🔑 Generate Wallet" "generate_wallet" userId]])
  ++ [[callback "View Address" "view_address" userId;
       callback "Export Private Key" "export_private_key" userId];
      [callback "Check Balance" "check_balance" userId;
       callback "Transaction History" "transaction_history" userId];
      [callback "💰 Request Airdrop" "request_airdrop" userId];
      [callback "Send SOL" "send_sol" userId];
      [callback "Check User Map" "check_user_map" userId]].

(** The two buttons under the confirmation prompt of the text handler. *)
Definition confirmKeyboard (userId : string) : list (list Button) :=
  [[callback "✅ Confirm Send" "confirm_send_sol" userId;
    callback "❌ Cancel" "cancel_send_sol" userId]].

(** The routes [bot.action(/^name:(\d+)$/, handler)] of [main], in the
    order of registration. *)
Inductive Action : Type :=
| check_user_map | generate_wallet | view_address | export_private_key
| check_balance | transaction_history | send_sol | request_airdrop
| confirm_send_sol | cancel_send_sol.

Definition action_name (a : Action) : string :=
  match a with
  | check_user_map => "check_user_map"
  | generate_wallet => "generate_wallet"
  | view_address => "view_address"
  | export_private_key => "export_private_key"
  | check_balance => "check_balance"
  | transaction_history => "transaction_history"
  | send_sol => "send_sol"
  | request_airdrop => "request_airdrop"
  | confirm_send_sol => "confirm_send_sol"
  | cancel_send_sol => "cancel_send_sol"
  end.

Definition actions : list Action :=
  [check_user_map; generate_wallet; view_address; export_private_key;
   check_balance; transaction_history; send_sol; request_airdrop;
   confirm_send_sol; cancel_send_sol].

(** What is left of [s] after the prefix [p], if [s] starts with it. *)
Fixpoint strip_prefix (p s : string) : option string :=
  match p, s with
  | EmptyString, _ => Some s
  | String a p', String b s' => if Ascii.eqb a b then strip_prefix p' s' else None
  | String _ _, EmptyString => None
  end.

(** [\d] *)
Definition is_digit (c : Ascii.ascii) : bool :=
  Nat.leb 48 (Ascii.nat_of_ascii c) && Nat.leb (Ascii.nat_of_ascii c) 57.

Fixpoint all_digits (s : string) : bool :=
  match s with
  | EmptyString => true
  | String c rest => is_digit c && all_digits rest
  end.

(** [/^name:(\d+)$/.exec(data)]: the captured group, if the whole of
    [data] matches. *)
Definition match_action (name data : string) : option string :=
  match strip_prefix (name +:+ ":") data with
  | Some rest => if negb (String.eqb rest "") && all_digits rest then Some rest else None
  | None => None
  end.

(** The first registered route whose pattern matches the callback data,
    with [ctx.match[1]]. *)
Fixpoint first_match (l : list Action) (data : string) : option (Action * string) :=
  match l with
  | [] => None
  | a :: l' =>
      match match_action (action_name a) data with
      | Some userId => Some (a, userId)
      | None => first_match l' data
      end
  end.

Definition route (data : string) : option (Action * string) :=
  first_match actions data.

(** [String.prototype.split] with a one-character separator.  (A space
    is one byte that occurs in no longer UTF-8 sequence, so counting and
    emptiness of the parts do not depend on the encoding.) *)
Fixpoint split_on (sep : Ascii.ascii) (s : string) : list string :=
  match s with
  | EmptyString => [""]
  | String c rest =>
      if Ascii.eqb c sep then "" :: split_on sep rest
      else match split_on sep rest with
           | part :: parts => String c part :: parts
           | [] => [String c ""]
           end
  end.

Definition starts_with (c : Ascii.ascii) (s : string) : bool :=
  match s with
  | EmptyString => false
  | String a _ => Ascii.eqb a c
  end.

Fixpoint ends_with (c : Ascii.ascii) (s : string) : bool :=
  match s with
  | EmptyString => false
  | String a EmptyString => Ascii.eqb a c
  | String _ rest => ends_with c rest
  end.

(** The text handler on the text itself; [text] is
    [ctx.message.text.trim()]. *)
Definition onTextMessage (env : Env) (userId : option string) (text : string)
    (rpc : Res Z) (now : Z) : M unit :=
  onText env userId (split_on (Ascii.ascii_of_nat 32) text) rpc now.

(** [`${signature.slice(0, 8)}...${signature.slice(-8)}`], the signature
    as the messages show it ([shortSig] in [formatTransactionHistory]). *)
Definition shortSig (signature : string) : string :=
  String.substring 0 8 signature
  +:+ "..."
  +:+ String.substring (String.length signature - 8) 8 signature.

(** Texts and calls of the handlers that only read [USERS]; nothing in
    them throws, so their [try]/[catch] is not shown. *)
Inductive Info : Type :=
| TotalUsers (n : nat)                 (* `Total users: ${n}` *)
| YourWalletAddress (address : string) (* "Your Wallet Address:" and the key *)
| NoWalletFound.                       (* "No wallet found! Please generate a wallet first." *)

Inductive Call : Type :=
| answerCb (text : option string)      (* [ctx.answerCbQuery(text)] *)
| sendInfo (text : Info) (keyboard : list (list Button)).
                                       (* [sendMessageWithKeyboard(ctx, text, userId, users)] *)

Definition handleCheckUserMap (userId : option string)
    (users : gmap string Keypair) : list Call :=
  match userId with
  | Some u =>
      if validateUserId userId then
        [answerCb None;
         sendInfo (TotalUsers (size users)) (getKeyboard u (hasWallet u users))]
      else []
  | None => []
  end.

Definition handleViewAddress (userId : option string)
    (users : gmap string Keypair) : list Call :=
  match userId with
  | Some u =>
      if validateUserId userId then
        answerCb None ::
        match users !! u with
        | None => [sendInfo NoWalletFound (getKeyboard u (hasWallet u users))]
        | Some keypair =>
            [sendInfo (YourWalletAddress (publicKey keypair))
               (getKeyboard u (hasWallet u users))]
        end
      else []
  | None => []
  end.

(** ** Further facts about stored entries *)

(** Every stored amount passed the amount check of the text handler. *)
Definition amounts_valid (s : State) : Prop :=
  ∀ u tx, PENDING_TRANSACTIONS s !! u = Some tx →
          isNaN (amount tx) = false ∧ num_le (amount tx) zero = false.

(** Every scheduled callback has a handle the runtime has already given
    out. *)
Definition handles_fresh (s : State) : Prop :=
  ∀ t, t ∈ timers s → (handle t < nextTimer s)%nat.

(** The user whose request an event is, for the events that are
    requests. *)
Definition event_user (ev : Event) : option string :=
  match ev with
  | GenerateWallet userId _ _ => userId
  | ExportPrivateKey userId _ => userId
  | Text userId _ _ _ => userId
  | ConfirmSendSol userId _ _ => userId
  | CancelSendSol userId => userId
  | Sweep _ | TimerFires _ _ | Shutdown => None
  end.

Definition bob : string := "7".

(** * Properties *)

(** ** Running handlers symbolically *)

Ltac unfold_monad :=
  cbv beta iota zeta delta
    [bind ret throw try_catch try_finally get modify emit await
     run_state run_trace run_result guardUserId sendMessageWithKeyboard
     handleError getBalance sendSOL setTimeout].

Local Arguments validateUserId : simpl never.

Lemma validateUserId_nonempty (u : string) :
  u ≠ "" → validateUserId (Some u) = true.
Proof. destruct u; [congruence | reflexivity]. Qed.

Lemma validateUserId_inv (u : string) :
  validateUserId (Some u) = true → u ≠ "".
Proof. destruct u; [discriminate | congruence]. Qed.

Lemma eqb_empty_false (u : string) : u ≠ "" → String.eqb u "" = false.
Proof. intros H. apply String.eqb_neq. exact H. Qed.

(** ** Lists with distinct keys *)

Section Keys.
Context {A K : Type} `{EqDecision K} (key : A → K).

Lemma NoDup_fmap_filter (P : A → Prop) `{∀ x, Decision (P x)} (l : list A) :
  NoDup (key <$> l) → NoDup (key <$> filter P l).
Proof.
  induction l as [|a l IH]; simpl; [intros; constructor|].
  rewrite NoDup_cons. intros [Hnotin Hnd].
  rewrite filter_cons. destruct (decide (P a)); [|auto].
  rewrite fmap_cons, NoDup_cons. split; [|auto].
  intros Hin. apply Hnotin.
  apply list_elem_of_fmap in Hin as (x & Hx & Hin).
  apply list_elem_of_filter in Hin as [_ Hin].
  apply list_elem_of_fmap. eauto.
Qed.

Lemma at_most_one_with_key (k : K) (l : list A) :
  NoDup (key <$> l) → (length (filter (fun a => key a = k) l) ≤ 1)%nat.
Proof.
  induction l as [|a l IH]; simpl; [lia|].
  rewrite NoDup_cons. intros [Hnotin Hnd].
  rewrite filter_cons. destruct (decide (key a = k)) as [<-|]; [|auto].
  assert (filter (fun b => key b = key a) l = []) as ->; [|simpl; lia].
  destruct (filter (fun b => key b = key a) l) as [|b l'] eqn:E; [reflexivity|].
  exfalso. apply Hnotin.
  assert (b ∈ filter (fun b => key b = key a) l) as Hb
    by (rewrite E; apply list_elem_of_here).
  apply list_elem_of_filter in Hb as [<- Hb].
  apply list_elem_of_fmap. eauto.
Qed.
End Keys.

(** ** What each entry point can do to the state *)

Section StateChanges.

Variable env : Env.

Lemma handleGenerateWallet_state userId entropy rpc s :
  let s' := run_state (handleGenerateWallet env userId entropy rpc) s in
  s' = s ∨
  ∃ u m, userId = Some u ∧ u ≠ "" ∧ USERS s !! u = None ∧ entropy = Ok m ∧
         s' = set_USERS (insert u (keypairFromMnemonic env m)) s.
Proof.
  unfold handleGenerateWallet, hasWallet. unfold_monad.
  destruct userId as [u|]; simpl; [|by left].
  destruct (validateUserId (Some u)) eqn:Hv; simpl; [|by left].
  apply validateUserId_inv in Hv.
  destruct (USERS s !! u) eqn:Hu; simpl; [by left|].
  destruct entropy as [m|e]; simpl; [|by left].
  right. exists u, m. by destruct rpc.
Qed.

Lemma handleExportPrivateKey_state userId sent s :
  let s' := run_state (handleExportPrivateKey userId sent) s in
  s' = s ∨
  ∃ u message_id, userId = Some u ∧ is_Some (USERS s !! u) ∧
         PENDING_DELETIONS s !! u = None ∧ sent = Ok message_id ∧
         s' = {| USERS := USERS s;
                 PENDING_DELETIONS := <[u := nextTimer s]> (PENDING_DELETIONS s);
                 PENDING_TRANSACTIONS := PENDING_TRANSACTIONS s;
                 timers := timers s ++ [mkTimer (nextTimer s) u message_id];
                 nextTimer := S (nextTimer s) |}.
Proof.
  unfold handleExportPrivateKey. unfold_monad.
  destruct userId as [u|]; simpl; [|by left].
  destruct (validateUserId (Some u)) eqn:Hv; simpl; [|by left].
  destruct (USERS s !! u) eqn:Hu; simpl; [|by left].
  destruct (PENDING_DELETIONS s !! u) eqn:Hd; simpl; [by left|].
  destruct sent as [message_id|e]; simpl; [|by left].
  right. exists u, message_id. rewrite Hu. eauto 10.
Qed.

Lemma onText_state userId parts rpc now s :
  let s' := run_state (onText env userId parts rpc now) s in
  s' = s ∨
  ∃ u tx, userId = Some u ∧ u ≠ "" ∧ is_Some (USERS s !! u) ∧
          PENDING_TRANSACTIONS s !! u = None ∧
          valid_address env (recipientAddress tx) ∧
          s' = set_PENDING_TRANSACTIONS (insert u tx) s.
Proof.
  unfold onText, onText_resume, onText_begin, hasWallet. unfold_monad.
  destruct userId as [u|]; simpl; [|by left].
  destruct (String.eqb_spec u ""); simpl; [by left|].
  destruct (USERS s !! u) eqn:Hu; simpl; [|by left].
  destruct parts as [|recipient [|amountStr [|? ?]]]; simpl; try by left.
  destruct (String.eqb recipient "" || String.eqb amountStr ""); simpl; [by left|].
  destruct (isNaN (parseFloat env amountStr) || num_le (parseFloat env amountStr) zero);
    simpl; [by left|].
  unfold onText_check, onText_catch. unfold_monad.
  destruct (newPublicKey env recipient) as [[]|e] eqn:Hpk; simpl.
  2: { destruct (includes _ _); simpl; by left. }
  destruct (PENDING_TRANSACTIONS s !! u) eqn:Hp; simpl; [by left|].
  rewrite Hu. simpl.
  unfold onText_commit, onText_catch. unfold_monad.
  destruct rpc as [l|e]; simpl; [|by left].
  destruct (num_lt (lamportsToSol env l) (parseFloat env amountStr)); simpl; [by left|].
  right. eexists u, _. rewrite Hu. repeat split; eauto.
Qed.

Lemma handleConfirmSendSol_state userId rpcBalance rpcSend s :
  let s' := run_state (handleConfirmSendSol env userId rpcBalance rpcSend) s in
  s' = s ∨ ∃ u, userId = Some u ∧ s' = set_PENDING_TRANSACTIONS (delete u) s.
Proof.
  unfold handleConfirmSendSol. unfold_monad.
  destruct userId as [u|]; simpl; [|by left].
  destruct (validateUserId (Some u)); simpl; [|by left].
  destruct (USERS s !! u); simpl; [|by left].
  destruct (PENDING_TRANSACTIONS s !! u) as [tx|]; simpl; [|by left].
  right. exists u. split; [done|].
  destruct (newPublicKey env (recipientAddress tx)) as [[]|e]; simpl.
  2: { by destruct (includes _ _). }
  destruct rpcBalance as [l|e]; simpl; [|done].
  destruct (num_lt (lamportsToSol env l) (amount tx)); simpl; [done|].
  by destruct rpcSend.
Qed.

Lemma handleCancelSendSol_state userId s :
  let s' := run_state (handleCancelSendSol userId) s in
  s' = s ∨ ∃ u, userId = Some u ∧ s' = set_PENDING_TRANSACTIONS (delete u) s.
Proof.
  unfold handleCancelSendSol. unfold_monad.
  destruct userId as [u|]; simpl; [|by left].
  destruct (validateUserId (Some u)); simpl; [|by left].
  destruct (PENDING_TRANSACTIONS s !! u); simpl; [|by left].
  right. by exists u.
Qed.

Lemma fire_state h deleted s :
  let s' := run_state (fire h deleted) s in
  s' = s ∨
  ∃ t, t ∈ timers s ∧ handle t = h ∧
       s' = set_PENDING_DELETIONS (delete (t_userId t))
              (set_timers (filter (fun t' : Timer => handle t' ≠ h)) s).
Proof.
  unfold fire, deletionCallback. unfold_monad.
  destruct (List.find _ (timers s)) as [t|] eqn:Hf; simpl; [|by left].
  apply List.find_some in Hf as [Hin Hh]. apply Nat.eqb_eq in Hh.
  right. exists t. split; [by apply list_elem_of_In|]. split; [done|].
  by destruct deleted.
Qed.

End StateChanges.

(** ** The invariant holds in every reachable state *)

Section Invariant.

Variable env : Env.

Lemma wf_initial : wf env initial.
Proof.
  split; simpl.
  - intros u [kp Hkp]. by rewrite lookup_empty in Hkp.
  - intros u tx H. by rewrite lookup_empty in H.
  - intros u h H. by rewrite lookup_empty in H.
  - intros t H. by apply not_elem_of_nil in H.
  - constructor.
Qed.

Lemma wf_insert_user s u kp :
  wf env s → u ≠ "" → wf env (set_USERS (insert u kp) s).
Proof.
  intros [Hu Ht Hd Hti Hnd] Hne. split; simpl; try done.
  - intros v. destruct (decide (u = v)) as [<-|Hv]; [done|].
    rewrite lookup_insert_ne by done. apply Hu.
  - intros v tx Hv. destruct (Ht v tx Hv) as [Hw Ha]. split; [|done].
    destruct (decide (u = v)) as [<-|Huv].
    + rewrite lookup_insert_eq. eauto.
    + by rewrite lookup_insert_ne.
  - intros v h Hv. specialize (Hd v h Hv).
    destruct (decide (u = v)) as [<-|Huv].
    + rewrite lookup_insert_eq. eauto.
    + by rewrite lookup_insert_ne.
Qed.

Lemma wf_schedule s u message_id :
  wf env s → is_Some (USERS s !! u) → PENDING_DELETIONS s !! u = None →
  wf env {| USERS := USERS s;
            PENDING_DELETIONS := <[u := nextTimer s]> (PENDING_DELETIONS s);
            PENDING_TRANSACTIONS := PENDING_TRANSACTIONS s;
            timers := timers s ++ [mkTimer (nextTimer s) u message_id];
            nextTimer := S (nextTimer s) |}.
Proof.
  intros [Hu Ht Hd Hti Hnd] Hw Hnone.
  assert (∀ t, t ∈ timers s → t_userId t ≠ u) as Hother.
  { intros t Hin Heq. apply Hti in Hin. rewrite Heq in Hin. congruence. }
  split; simpl; try done.
  - intros v h. destruct (decide (u = v)) as [<-|Huv]; [done|].
    rewrite lookup_insert_ne by done. apply Hd.
  - intros t [Hin|Hin]%elem_of_app.
    + rewrite lookup_insert_ne; [by apply Hti|].
      intros Heq. by apply (Hother t).
    + apply list_elem_of_singleton in Hin as ->. simpl. apply lookup_insert_eq.
  - rewrite fmap_app. apply NoDup_app. split; [done|]. split; [|apply NoDup_singleton].
    intros v Hv Hin. apply list_elem_of_singleton in Hin as ->.
    apply list_elem_of_fmap in Hv as (t & Heq & Hin). by apply (Hother t).
Qed.

Lemma wf_insert_transfer s u tx :
  wf env s → is_Some (USERS s !! u) → valid_address env (recipientAddress tx) →
  wf env (set_PENDING_TRANSACTIONS (insert u tx) s).
Proof.
  intros [Hu Ht Hd Hti Hnd] Hw Ha. split; simpl; try done.
  intros v tx'. destruct (decide (u = v)) as [<-|Huv].
  - rewrite lookup_insert_eq. by intros [= <-].
  - rewrite lookup_insert_ne by done. apply Ht.
Qed.

Lemma wf_delete_transfer s u :
  wf env s → wf env (set_PENDING_TRANSACTIONS (delete u) s).
Proof.
  intros [Hu Ht Hd Hti Hnd]. split; simpl; try done.
  intros v tx. destruct (decide (u = v)) as [<-|Huv].
  - by rewrite lookup_delete_eq.
  - rewrite lookup_delete_ne by done. apply Ht.
Qed.

Lemma wf_filter_transfer s (P : string * Transfer → Prop) `{∀ x, Decision (P x)} :
  wf env s → wf env (set_PENDING_TRANSACTIONS (filter P) s).
Proof.
  intros [Hu Ht Hd Hti Hnd]. split; simpl; try done.
  intros v tx [Hv _]%map_lookup_filter_Some. by apply Ht.
Qed.

Lemma wf_filter_timers s (P : Timer → Prop) `{∀ x, Decision (P x)} :
  wf env s → wf env (set_timers (filter P) s).
Proof.
  intros [Hu Ht Hd Hti Hnd]. split; simpl; try done.
  - intros t [_ Hin]%list_elem_of_filter. by apply Hti.
  - by apply NoDup_fmap_filter.
Qed.

Lemma wf_fire s t :
  wf env s → t ∈ timers s →
  wf env (set_PENDING_DELETIONS (delete (t_userId t))
            (set_timers (filter (fun t' : Timer => handle t' ≠ handle t)) s)).
Proof.
  intros [Hu Ht Hd Hti Hnd] Hin. split; simpl; try done.
  - intros v h. destruct (decide (t_userId t = v)) as [<-|Hv].
    + by rewrite lookup_delete_eq.
    + rewrite lookup_delete_ne by done. apply Hd.
  - intros t' [Hh Hin']%list_elem_of_filter.
    rewrite lookup_delete_ne; [by apply Hti|].
    intros Heq. apply Hh.
    pose proof (Hti t Hin) as H1. pose proof (Hti t' Hin') as H2.
    rewrite Heq in H1. congruence.
  - by apply NoDup_fmap_filter.
Qed.

Lemma wf_step s ev : wf env s → wf env (step env s ev).
Proof.
  intros Hwf. unfold step. destruct ev; simpl.
  - destruct (handleGenerateWallet_state env userId entropy rpc s)
      as [->|(u & m & _ & Hne & _ & _ & ->)]; [done|].
    by apply wf_insert_user.
  - destruct (handleExportPrivateKey_state userId sent s)
      as [->|(u & mid & _ & Hw & Hnone & _ & ->)]; [done|].
    by apply wf_schedule.
  - destruct (onText_state env userId parts rpc now s)
      as [->|(u & tx & _ & _ & Hw & _ & Ha & ->)]; [done|].
    by apply wf_insert_transfer.
  - destruct (handleConfirmSendSol_state env userId rpcBalance rpcSend s)
      as [->|(u & _ & ->)]; [done|].
    by apply wf_delete_transfer.
  - destruct (handleCancelSendSol_state userId s) as [->|(u & _ & ->)]; [done|].
    by apply wf_delete_transfer.
  - unfold sweep. unfold_monad. simpl. by apply wf_filter_transfer.
  - destruct (fire_state h deleted s) as [->|(t & Hin & <- & ->)]; [done|].
    by apply wf_fire.
  - unfold gracefulShutdown. unfold_monad. simpl. by apply wf_filter_timers.
Qed.

Lemma wf_reachable s : reachable env s → wf env s.
Proof.
  induction 1 as [|s ev _ IH]; [apply wf_initial | by apply wf_step].
Qed.

End Invariant.

(** ** Wallets are written once *)

Section Wallets.

Variable env : Env.

Lemma step_keeps_wallet s ev u kp :
  USERS s !! u = Some kp → USERS (step env s ev) !! u = Some kp.
Proof.
  intros Hu. unfold step. destruct ev; simpl.
  - destruct (handleGenerateWallet_state env userId entropy rpc s)
      as [->|(v & m & _ & _ & Hnone & _ & ->)]; [done|]. simpl.
    rewrite lookup_insert_ne; [done|]. intros ->. congruence.
  - by destruct (handleExportPrivateKey_state userId sent s)
      as [->|(v & mid & _ & _ & _ & _ & ->)].
  - by destruct (onText_state env userId parts rpc now s)
      as [->|(v & tx & _ & _ & _ & _ & _ & ->)].
  - by destruct (handleConfirmSendSol_state env userId rpcBalance rpcSend s)
      as [->|(v & _ & ->)].
  - by destruct (handleCancelSendSol_state userId s) as [->|(v & _ & ->)].
  - done.
  - by destruct (fire_state h deleted s) as [->|(t & _ & _ & ->)].
  - done.
Qed.

(** No handler shows a recovery phrase to a user who already has a
    wallet. *)
Lemma dispatch_hides_phrase s ev u kp :
  USERS s !! u = Some kp →
  Forall (fun e => shows_recovery_phrase u e = false) (run_trace (dispatch env ev) s).
Proof.
  intros Hu. destruct ev; simpl.
  - unfold handleGenerateWallet, hasWallet. unfold_monad.
    destruct userId as [v|]; simpl; [|repeat constructor].
    destruct (validateUserId (Some v)); simpl; [|repeat constructor].
    destruct (USERS s !! v) eqn:Hv; simpl; [repeat constructor|].
    assert (String.eqb u v = false) as Huv.
    { apply String.eqb_neq. intros ->. congruence. }
    destruct entropy; simpl; [|repeat constructor].
    destruct rpc; simpl; repeat constructor. simpl. exact Huv.
  - unfold handleExportPrivateKey. unfold_monad.
    destruct userId as [v|]; simpl; [|constructor].
    destruct (validateUserId (Some v)); simpl; [|constructor].
    destruct (USERS s !! v); simpl; [|repeat constructor].
    destruct (PENDING_DELETIONS s !! v); simpl; [repeat constructor|].
    destruct sent; simpl; repeat constructor.
  - unfold onText, onText_resume, onText_begin, hasWallet. unfold_monad.
    destruct userId as [v|]; simpl; [|constructor].
    destruct (String.eqb v "" || _); simpl; [constructor|].
    destruct parts as [|recipient [|amountStr [|? ?]]]; simpl; try constructor.
    destruct (String.eqb recipient "" || String.eqb amountStr ""); simpl;
      [repeat constructor|].
    destruct (isNaN _ || _); simpl; [repeat constructor|].
    unfold onText_check, onText_catch. unfold_monad.
    destruct (newPublicKey env recipient) as [[]|e]; simpl.
    2: { destruct (includes _ _); simpl; repeat constructor. }
    destruct (PENDING_TRANSACTIONS s !! v); simpl; [repeat constructor|].
    destruct (USERS s !! v); simpl; [|repeat constructor].
    unfold onText_commit, onText_catch. unfold_monad.
    destruct rpc as [l|e]; simpl; [|repeat constructor].
    destruct (num_lt _ _); simpl; repeat constructor.
  - unfold handleConfirmSendSol. unfold_monad.
    destruct userId as [v|]; simpl; [|constructor].
    destruct (validateUserId (Some v)); simpl; [|constructor].
    destruct (USERS s !! v); simpl; [|repeat constructor].
    destruct (PENDING_TRANSACTIONS s !! v) as [tx|]; simpl; [|repeat constructor].
    destruct (newPublicKey env (recipientAddress tx)) as [[]|e]; simpl.
    2: { destruct (includes _ _); repeat constructor. }
    destruct rpcBalance as [l|e]; simpl; [|repeat constructor].
    destruct (num_lt _ _); simpl; [repeat constructor|].
    destruct rpcSend; simpl; repeat constructor.
  - unfold handleCancelSendSol. unfold_monad.
    destruct userId as [v|]; simpl; [|constructor].
    destruct (validateUserId (Some v)); simpl; [|constructor].
    destruct (PENDING_TRANSACTIONS s !! v); simpl; repeat constructor.
  - constructor.
  - unfold fire, deletionCallback. unfold_monad.
    destruct (List.find _ (timers s)); simpl; [|constructor].
    destruct deleted; simpl; repeat constructor.
  - repeat constructor.
Qed.

Lemma exec_keeps_wallet evs s u kp :
  USERS s !! u = Some kp →
  USERS (exec env evs s).1 !! u = Some kp ∧
  Forall (fun e => shows_recovery_phrase u e = false) (exec env evs s).2.
Proof.
  revert s. induction evs as [|ev evs IH]; intros s Hu; simpl.
  - split; [done | constructor].
  - pose proof (step_keeps_wallet s ev u kp Hu) as Hs.
    pose proof (dispatch_hides_phrase s ev u kp Hu) as Ht.
    unfold step, run_state, run_trace in Hs, Ht.
    destruct (dispatch env ev s) as [[r s1] t1]. simpl in Hs, Ht.
    destruct (IH s1 Hs) as [IH1 IH2].
    destruct (exec env evs s1) as [s2 t2]. simpl in *.
    split; [done|]. by apply Forall_app.
Qed.

End Wallets.

(** ** Transfer proposals *)

Section Proposals.

Variable env : Env.

Lemma proposals_at_most_one u s : (proposals_of u s ≤ 1)%nat.
Proof.
  unfold proposals_of. apply (at_most_one_with_key fst).
  apply NoDup_fst_map_to_list.
Qed.

(** Whatever the text, the handler never writes over a stored proposal. *)
Lemma onText_pending_untouched s u tx parts rpc now :
  PENDING_TRANSACTIONS s !! u = Some tx →
  run_state (onText env (Some u) parts rpc now) s = s.
Proof.
  intros Hp.
  destruct (onText_state env (Some u) parts rpc now s)
    as [H|(v & tx' & [= <-] & _ & _ & Hnone & _)]; [done | congruence].
Qed.

Lemma onText_already_pending s u kp tx recipient amountStr rpc now :
  u ≠ "" → USERS s !! u = Some kp → PENDING_TRANSACTIONS s !! u = Some tx →
  recipient ≠ "" → amountStr ≠ "" →
  isNaN (parseFloat env amountStr) = false →
  num_le (parseFloat env amountStr) zero = false →
  valid_address env recipient →
  onText env (Some u) [recipient; amountStr] rpc now s
  = (Ok tt, s, [reply AlreadyPending]).
Proof.
  intros Hu Hk Hp Hr Ha Hnan Hpos Hpk.
  unfold onText, onText_resume, onText_begin, hasWallet. unfold_monad.
  rewrite (eqb_empty_false u Hu), (eqb_empty_false recipient Hr),
    (eqb_empty_false amountStr Ha), Hk, Hnan, Hpos. simpl.
  unfold onText_check, onText_catch. unfold_monad.
  rewrite Hpk, Hp. reflexivity.
Qed.

Lemma confirm_nothing_pending s u rpcBalance rpcSend :
  u ≠ "" → PENDING_TRANSACTIONS s !! u = None →
  handleConfirmSendSol env (Some u) rpcBalance rpcSend s
  = (Ok tt, s, [answerCbQuery (Some "Processing transaction...");
                editMessageText TransactionExpired]).
Proof.
  intros Hu Hp. unfold handleConfirmSendSol. unfold_monad.
  rewrite (validateUserId_nonempty u Hu), Hp.
  by destruct (USERS s !! u).
Qed.

Lemma confirm_after_removal s u rpcBalance rpcSend :
  u ≠ "" →
  handleConfirmSendSol env (Some u) rpcBalance rpcSend
    (set_PENDING_TRANSACTIONS (delete u) s)
  = (Ok tt, set_PENDING_TRANSACTIONS (delete u) s,
     [answerCbQuery (Some "Processing transaction...");
      editMessageText TransactionExpired]).
Proof.
  intros Hu. apply confirm_nothing_pending; [done|]. simpl. apply lookup_delete_eq.
Qed.

(** C1 (as amended): a text that passes the format, amount and address
    validation while a proposal is pending for the user is answered with
    "You already have a pending transaction" and changes nothing; no text
    at all, valid or not, changes a pending proposal; and the map never
    holds more than one proposal per user. *)
Theorem C1_propose_while_pending s u tx :
  reachable env s →
  PENDING_TRANSACTIONS s !! u = Some tx →
  (proposals_of u s ≤ 1)%nat ∧
  (∀ parts rpc now,
     let s' := run_state (onText env (Some u) parts rpc now) s in
     s' = s ∧ PENDING_TRANSACTIONS s' !! u = Some tx ∧ (proposals_of u s' ≤ 1)%nat) ∧
  (∀ recipient amountStr rpc now,
     recipient ≠ "" → amountStr ≠ "" →
     isNaN (parseFloat env amountStr) = false →
     num_le (parseFloat env amountStr) zero = false →
     valid_address env recipient →
     onText env (Some u) [recipient; amountStr] rpc now s
     = (Ok tt, s, [reply AlreadyPending])).
Proof.
  intros Hr Hp. pose proof (wf_reachable env s Hr) as Hwf.
  destruct (wf_transfer env s Hwf u tx Hp) as [[kp Hk] _].
  assert (u ≠ "") as Hu by (apply (wf_users env s Hwf); eauto).
  split; [apply proposals_at_most_one|]. split.
  - intros parts rpc now. simpl.
    rewrite (onText_pending_untouched s u tx parts rpc now Hp).
    split; [done|]. split; [done | apply proposals_at_most_one].
  - intros. by eapply onText_already_pending.
Qed.

(** C2: with a proposal pending, a confirm whose balance query answers
    less than the proposed amount removes the proposal and edits the
    message to "Insufficient balance. You have <observed> SOL."; any later
    confirm answers "Transaction expired or invalid." *)
Theorem C2_confirm_insufficient_balance s u tx l rpcSend :
  reachable env s →
  PENDING_TRANSACTIONS s !! u = Some tx →
  num_lt (lamportsToSol env l) (amount tx) = true →
  let s' := set_PENDING_TRANSACTIONS (delete u) s in
  handleConfirmSendSol env (Some u) (Ok l) rpcSend s
  = (Ok tt, s',
     [answerCbQuery (Some "Processing transaction...");
      editMessageText (InsufficientBalance (lamportsToSol env l))]) ∧
  PENDING_TRANSACTIONS s' !! u = None ∧
  ∀ rpcBalance' rpcSend',
    handleConfirmSendSol env (Some u) rpcBalance' rpcSend' s'
    = (Ok tt, s',
       [answerCbQuery (Some "Processing transaction...");
        editMessageText TransactionExpired]).
Proof.
  intros Hr Hp Hlt. pose proof (wf_reachable env s Hr) as Hwf.
  destruct (wf_transfer env s Hwf u tx Hp) as [[kp Hk] Ha].
  assert (u ≠ "") as Hu by (apply (wf_users env s Hwf); eauto).
  simpl. split; [|split].
  - unfold handleConfirmSendSol. unfold_monad.
    rewrite (validateUserId_nonempty u Hu), Hk, Hp, Ha. simpl.
    rewrite Hlt. reflexivity.
  - apply lookup_delete_eq.
  - intros. by apply confirm_after_removal.
Qed.

(** C3: a confirm with nothing pending answers "Transaction expired or
    invalid." and changes nothing; with a proposal pending, a balance not
    below the amount and a successful submission, it reports the signature
    and removes the proposal, so that the next confirm finds nothing
    pending. *)
Theorem C3_confirm s u :
  u ≠ "" →
  (PENDING_TRANSACTIONS s !! u = None →
   ∀ rpcBalance rpcSend,
     handleConfirmSendSol env (Some u) rpcBalance rpcSend s
     = (Ok tt, s,
        [answerCbQuery (Some "Processing transaction...");
         editMessageText TransactionExpired])) ∧
  (reachable env s →
   ∀ tx l signature,
     PENDING_TRANSACTIONS s !! u = Some tx →
     num_lt (lamportsToSol env l) (amount tx) = false →
     let s' := set_PENDING_TRANSACTIONS (delete u) s in
     handleConfirmSendSol env (Some u) (Ok l) (Ok signature) s
     = (Ok tt, s',
        [answerCbQuery (Some "Processing transaction...");
         editMessageText (SolSent (amount tx) (recipientAddress tx) signature)]) ∧
     PENDING_TRANSACTIONS s' !! u = None ∧
     ∀ rpcBalance' rpcSend',
       handleConfirmSendSol env (Some u) rpcBalance' rpcSend' s'
       = (Ok tt, s',
          [answerCbQuery (Some "Processing transaction...");
           editMessageText TransactionExpired])).
Proof.
  intros Hu. split.
  - intros Hp rpcBalance rpcSend. by apply confirm_nothing_pending.
  - intros Hr tx l signature Hp Hge. pose proof (wf_reachable env s Hr) as Hwf.
    destruct (wf_transfer env s Hwf u tx Hp) as [[kp Hk] Ha].
    simpl. split; [|split].
    + unfold handleConfirmSendSol. unfold_monad.
      rewrite (validateUserId_nonempty u Hu), Hk, Hp, Ha. simpl.
      rewrite Hge. reflexivity.
    + apply lookup_delete_eq.
    + intros. by apply confirm_after_removal.
Qed.

End Proposals.

(** ** Private-key reveals *)

Section Reveals.

Variable env : Env.

(** Run without interruption, the two stretches of the export handler
    are the handler. *)
Lemma export_uninterrupted_eq userId sent s :
  export_uninterrupted userId sent s = handleExportPrivateKey userId sent s.
Proof.
  unfold export_uninterrupted, export_resume, export_begin, export_finish,
    handleExportPrivateKey.
  unfold_monad.
  destruct userId as [u|]; simpl; [|done].
  destruct (validateUserId (Some u)); simpl; [|done].
  destruct (USERS s !! u); simpl; [|done].
  destruct (PENDING_DELETIONS s !! u); simpl; [done|].
  by destruct sent.
Qed.

(** A request that finds an entry of its user waits: it sends the "wait"
    message only and changes nothing. *)
Lemma export_pending_waits s u kp h sent :
  u ≠ "" → USERS s !! u = Some kp → PENDING_DELETIONS s !! u = Some h →
  handleExportPrivateKey (Some u) sent s
  = (Ok tt, s, [answerCbQuery None; sendMessage PrivateKeyWait u true]).
Proof.
  intros Hu Hk Hd. unfold handleExportPrivateKey. unfold_monad.
  rewrite (validateUserId_nonempty u Hu), Hk, Hd. simpl.
  unfold hasWallet. rewrite Hk. reflexivity.
Qed.

Lemma resume_export_requested s u kp sent :
  u ≠ "" → USERS s !! u = Some kp → PENDING_DELETIONS s !! u = None →
  export_resume (ExportRequested (Some u)) sent s
  = (Ok (AwaitSent u), s,
     [answerCbQuery None; sendMessage (PrivateKey (secretKey kp)) u true]).
Proof.
  intros Hu Hk Hd. unfold export_resume, export_begin. unfold_monad.
  rewrite (validateUserId_nonempty u Hu), Hk, Hd. reflexivity.
Qed.

(** Past the await the handler schedules and stores whatever the record
    holds by then. *)
Lemma resume_export_sent s u message_id :
  export_resume (AwaitSent u) (Ok message_id) s
  = (Ok ExportDone,
     {| USERS := USERS s;
        PENDING_DELETIONS := <[u := nextTimer s]> (PENDING_DELETIONS s);
        PENDING_TRANSACTIONS := PENDING_TRANSACTIONS s;
        timers := timers s ++ [mkTimer (nextTimer s) u message_id];
        nextTimer := S (nextTimer s) |},
     []).
Proof. reflexivity. Qed.

(** Whatever the state, two export requests of a user with a wallet and
    no pending reveal that advance in lock step both show the key and both
    schedule a retraction; the record keeps the handle of the second. *)
Lemma lock_step_two_reveals s u kp message_id0 message_id1 :
  u ≠ "" → USERS s !! u = Some kp → PENDING_DELETIONS s !! u = None →
  let p := reveal_schedule
             {| reveal_shared := s;
                reveal_tasks := [ExportRequested (Some u); ExportRequested (Some u)];
                reveal_output := [] |}
             (exports_in_lock_step (Ok message_id0) (Ok message_id1)) in
  reveal_output_of 0 p
  = [answerCbQuery None; sendMessage (PrivateKey (secretKey kp)) u true] ∧
  reveal_output_of 1 p
  = [answerCbQuery None; sendMessage (PrivateKey (secretKey kp)) u true] ∧
  timers (reveal_shared p)
  = timers s ++ [mkTimer (nextTimer s) u message_id0;
                 mkTimer (S (nextTimer s)) u message_id1] ∧
  PENDING_DELETIONS (reveal_shared p) !! u = Some (S (nextTimer s)).
Proof.
  intros Hu Hk Hd.
  assert (reveal_schedule
            {| reveal_shared := s;
               reveal_tasks := [ExportRequested (Some u); ExportRequested (Some u)];
               reveal_output := [] |}
            (exports_in_lock_step (Ok message_id0) (Ok message_id1))
          = {| reveal_shared :=
                 {| USERS := USERS s;
                    PENDING_DELETIONS :=
                      <[u := S (nextTimer s)]>
                        (<[u := nextTimer s]> (PENDING_DELETIONS s));
                    PENDING_TRANSACTIONS := PENDING_TRANSACTIONS s;
                    timers := (timers s ++ [mkTimer (nextTimer s) u message_id0])
                              ++ [mkTimer (S (nextTimer s)) u message_id1];
                    nextTimer := S (S (nextTimer s)) |};
               reveal_tasks := [ExportDone; ExportDone];
               reveal_output :=
                 [(0%nat, answerCbQuery None);
                  (0%nat, sendMessage (PrivateKey (secretKey kp)) u true);
                  (1%nat, answerCbQuery None);
                  (1%nat, sendMessage (PrivateKey (secretKey kp)) u true)] |}) as E.
  { unfold reveal_schedule, exports_in_lock_step. simpl fold_left.
    unfold reveal_turn at 4. simpl.
    rewrite (resume_export_requested s u kp _ Hu Hk Hd). simpl.
    unfold reveal_turn at 3. simpl.
    rewrite (resume_export_requested s u kp _ Hu Hk Hd). simpl.
    unfold reveal_turn. simpl. reflexivity. }
  cbv zeta. rewrite E. unfold reveal_output_of. simpl.
  split; [done|]. split; [done|]. split; [by rewrite <- app_assoc|].
  apply lookup_insert_eq.
Qed.

(** C5: the scheduled callback always ends normally with the entry of its
    user removed from [PENDING_DELETIONS]; when the deletion of the message
    raises, the error is written to the console and goes no further.  So
    when the runtime fires a scheduled handle, the entry of its user is
    absent afterwards. *)
Theorem C5_retraction_clears_entry (s : State) (t : Timer) :
  (∀ deleted,
     run_result (deletionCallback t deleted) s = Ok tt ∧
     run_state (deletionCallback t deleted) s
     = set_PENDING_DELETIONS (delete (t_userId t)) s ∧
     PENDING_DELETIONS (run_state (deletionCallback t deleted) s) !! t_userId t = None) ∧
  (∀ error,
     run_trace (deletionCallback t (Throw error)) s
     = [deleteMessage (t_message_id t);
        console_error "Failed to delete private key message:" error]) ∧
  run_trace (deletionCallback t (Ok tt)) s
  = [deleteMessage (t_message_id t);
     console_log "Auto-deleted private key message for user" (t_userId t)] ∧
  (∀ h deleted,
     run_result (fire h deleted) s = Ok tt ∧
     match List.find (fun t' => Nat.eqb (handle t') h) (timers s) with
     | Some t' =>
         PENDING_DELETIONS (run_state (fire h deleted) s) !! t_userId t' = None
     | None => run_state (fire h deleted) s = s
     end).
Proof.
  split; [|split; [|split]].
  - unfold deletionCallback. unfold_monad.
    intros [[]|error]; simpl; (split; [done|]); (split; [done|]);
      apply lookup_delete_eq.
  - done.
  - done.
  - intros h deleted. unfold fire, deletionCallback. unfold_monad.
    destruct (List.find _ (timers s)) as [t'|]; simpl; [|done].
    destruct deleted as [[]|error]; simpl; (split; [done|]);
      apply lookup_delete_eq.
Qed.

End Reveals.

(** ** Wallet provisioning *)

Section Provisioning.

Variable env : Env.

Lemma generate_existing s u kp entropy rpc :
  u ≠ "" → USERS s !! u = Some kp →
  handleGenerateWallet env (Some u) entropy rpc s
  = (Ok tt, s,
     [answerCbQuery (Some "Generating wallet...");
      sendMessage WalletExists u true]).
Proof.
  intros Hu Hk. unfold handleGenerateWallet. unfold_monad. unfold hasWallet.
  rewrite (validateUserId_nonempty u Hu). simpl.
  rewrite !Hk. reflexivity.
Qed.

Lemma generate_provisions s u m rpc :
  u ≠ "" →
  is_Some (USERS (run_state (handleGenerateWallet env (Some u) (Ok m) rpc) s) !! u) ∧
  (USERS s !! u = None →
   USERS (run_state (handleGenerateWallet env (Some u) (Ok m) rpc) s) !! u
   = Some (keypairFromMnemonic env m)).
Proof.
  intros Hu. unfold handleGenerateWallet. unfold_monad. unfold hasWallet.
  rewrite (validateUserId_nonempty u Hu). simpl.
  destruct (USERS s !! u) as [kp|] eqn:Hk; simpl.
  - rewrite Hk. split; [eauto | done].
  - destruct rpc; simpl; rewrite lookup_insert_eq; eauto.
Qed.

(** C6: after a first provisioning request of a user (with a working
    entropy source) a wallet is stored; a second request stores nothing:
    the state, and so the record of the user, is the one the first call
    left, and the answer is "Wallet already exists!". *)
Theorem C6_provision_idempotent s u m rpc1 entropy2 rpc2 :
  u ≠ "" →
  let s1 := run_state (handleGenerateWallet env (Some u) (Ok m) rpc1) s in
  let s2 := run_state (handleGenerateWallet env (Some u) entropy2 rpc2) s1 in
  is_Some (USERS s1 !! u) ∧
  (USERS s !! u = None → USERS s1 !! u = Some (keypairFromMnemonic env m)) ∧
  s2 = s1 ∧
  USERS s2 !! u = USERS s1 !! u ∧
  handleGenerateWallet env (Some u) entropy2 rpc2 s1
  = (Ok tt, s1,
     [answerCbQuery (Some "Generating wallet...");
      sendMessage WalletExists u true]).
Proof.
  intros Hu s1 s2.
  destruct (generate_provisions s u m rpc1 Hu) as [[kp Hk] Hfresh].
  fold s1 in Hk, Hfresh.
  pose proof (generate_existing s1 u kp entropy2 rpc2 Hu Hk) as E.
  assert (s2 = s1) as Hs by (unfold s2, run_state; by rewrite E).
  split; [eauto|]. split; [done|]. split; [done|]. split; [by rewrite Hs | done].
Qed.

(** C10: when the balance query of a first provisioning request fails,
    the keypair is already stored: the user only gets "Something went
    wrong!", no message carries the recovery phrase, and from then on the
    wallet stays as stored, no handler ever shows the user a recovery
    phrase, and a new request answers "Wallet already exists!". *)
Theorem C10_provision_not_atomic s u m error :
  u ≠ "" →
  USERS s !! u = None →
  let kp := keypairFromMnemonic env m in
  let s1 := set_USERS (insert u kp) s in
  handleGenerateWallet env (Some u) (Ok m) (Throw error) s
  = (Ok tt, s1,
     [answerCbQuery (Some "Generating wallet...");
      console_error "Error fetching balance:" error;
      console_error "Error in generate_wallet handler:"
        (mkError "Failed to fetch balance. Please try again later.");
      answerCbQuery (Some "Something went wrong!")]) ∧
  ∀ evs,
    USERS (exec env evs s1).1 !! u = Some kp ∧
    Forall (fun e => shows_recovery_phrase u e = false) (exec env evs s1).2 ∧
    ∀ entropy rpc,
      handleGenerateWallet env (Some u) entropy rpc (exec env evs s1).1
      = (Ok tt, (exec env evs s1).1,
         [answerCbQuery (Some "Generating wallet...");
          sendMessage WalletExists u true]).
Proof.
  intros Hu Hnone kp s1. split.
  - unfold handleGenerateWallet. unfold_monad. unfold hasWallet.
    rewrite (validateUserId_nonempty u Hu). simpl.
    rewrite Hnone. reflexivity.
  - intros evs.
    assert (USERS s1 !! u = Some kp) as Hk by apply lookup_insert_eq.
    destruct (exec_keeps_wallet env evs s1 u kp Hk) as [Hkept Hhidden].
    split; [done|]. split; [done|].
    intros entropy rpc. by eapply generate_existing.
Qed.

End Provisioning.

(** ** Proposing and cancelling *)

Section Transfers.

Variable env : Env.

(** C7: when the balance the node reports is below the requested amount,
    the text handler answers "Insufficient balance. You have <observed>
    SOL, but tried to send <amount> SOL." and stores nothing: the entry of
    the user, absent before, is absent after. *)
Theorem C7_propose_insufficient_balance s u kp recipient amountStr l now :
  u ≠ "" →
  USERS s !! u = Some kp →
  PENDING_TRANSACTIONS s !! u = None →
  recipient ≠ "" → amountStr ≠ "" →
  isNaN (parseFloat env amountStr) = false →
  num_le (parseFloat env amountStr) zero = false →
  valid_address env recipient →
  num_lt (lamportsToSol env l) (parseFloat env amountStr) = true →
  onText env (Some u) [recipient; amountStr] (Ok l) now s
  = (Ok tt, s,
     [reply (InsufficientTried (lamportsToSol env l) (parseFloat env amountStr))]) ∧
  PENDING_TRANSACTIONS
    (run_state (onText env (Some u) [recipient; amountStr] (Ok l) now) s) !! u = None.
Proof.
  intros Hu Hk Hp Hr Ha Hnan Hpos Hpk Hlt.
  assert (onText env (Some u) [recipient; amountStr] (Ok l) now s
          = (Ok tt, s,
             [reply (InsufficientTried (lamportsToSol env l)
                       (parseFloat env amountStr))])) as E.
  { unfold onText, onText_resume, onText_begin, hasWallet. unfold_monad.
    rewrite (eqb_empty_false u Hu), (eqb_empty_false recipient Hr),
      (eqb_empty_false amountStr Ha), Hk, Hnan, Hpos. simpl.
    unfold onText_check, onText_catch. unfold_monad.
    rewrite Hpk, Hp, Hk. simpl.
    unfold onText_commit, onText_catch. unfold_monad. simpl.
    rewrite Hlt. reflexivity. }
  split; [exact E|]. unfold run_state. rewrite E. exact Hp.
Qed.

(** C8 (as amended): cancel removes the proposal of the user if there is
    one and leaves every other entry alone; with nothing pending the state
    is unchanged; it always ends normally, and in both cases makes the
    same two calls, "Transaction cancelled" and the "Transaction
    Cancelled" edit. *)
Theorem C8_cancel s u :
  u ≠ "" →
  handleCancelSendSol (Some u) s
  = (Ok tt, set_PENDING_TRANSACTIONS (delete u) s,
     [answerCbQuery (Some "Transaction cancelled");
      editMessageText TransactionCancelled]) ∧
  PENDING_TRANSACTIONS (run_state (handleCancelSendSol (Some u)) s) !! u = None ∧
  (∀ v, v ≠ u →
     PENDING_TRANSACTIONS (run_state (handleCancelSendSol (Some u)) s) !! v
     = PENDING_TRANSACTIONS s !! v) ∧
  (PENDING_TRANSACTIONS s !! u = None →
     run_state (handleCancelSendSol (Some u)) s = s).
Proof.
  intros Hu.
  assert (PENDING_TRANSACTIONS s !! u = None →
          set_PENDING_TRANSACTIONS (delete u) s = s) as Hid.
  { intros Hp. destruct s. unfold set_PENDING_TRANSACTIONS. simpl in *.
    f_equal. by apply delete_id. }
  assert (handleCancelSendSol (Some u) s
          = (Ok tt, set_PENDING_TRANSACTIONS (delete u) s,
             [answerCbQuery (Some "Transaction cancelled");
              editMessageText TransactionCancelled])) as E.
  { unfold handleCancelSendSol. unfold_monad.
    rewrite (validateUserId_nonempty u Hu). simpl.
    destruct (PENDING_TRANSACTIONS s !! u) eqn:Hp; simpl; [done|].
    by rewrite Hid. }
  split; [exact E|]. unfold run_state. rewrite E. simpl.
  split; [apply lookup_delete_eq|]. split; [|exact Hid].
  intros v Hv. by apply lookup_delete_ne.
Qed.

End Transfers.

(** ** Overlapping text handlers *)

Section Overlap.

Variable env : Env.

Lemma resume_received s u kp recipient amountStr rpc now :
  u ≠ "" → USERS s !! u = Some kp → valid_request env recipient amountStr →
  onText_resume env (Received (Some u) [recipient; amountStr]) rpc now s
  = (Ok (AwaitImport u recipient (parseFloat env amountStr)), s, []).
Proof.
  intros Hu Hk (Hr & Ha & Hnan & Hpos & _).
  unfold onText_resume, onText_begin, hasWallet. unfold_monad.
  rewrite (eqb_empty_false u Hu), (eqb_empty_false recipient Hr),
    (eqb_empty_false amountStr Ha), Hk, Hnan, Hpos. reflexivity.
Qed.

Lemma resume_checked s u kp recipient amt rpc now :
  USERS s !! u = Some kp → PENDING_TRANSACTIONS s !! u = None →
  valid_address env recipient →
  onText_resume env (AwaitImport u recipient amt) rpc now s
  = (Ok (AwaitBalance u recipient amt kp), s, []).
Proof.
  intros Hk Hp Hpk. unfold onText_resume, onText_check, onText_catch. unfold_monad.
  rewrite Hpk, Hp, Hk. reflexivity.
Qed.

(** Past the balance query the handler stores its proposal whatever the
    map holds by then. *)
Lemma resume_stores s u kp recipient amt l now :
  num_lt (lamportsToSol env l) amt = false →
  onText_resume env (AwaitBalance u recipient amt kp) (Ok l) now s
  = (Ok Finished,
     set_PENDING_TRANSACTIONS
       (insert u {| recipientAddress := recipient; amount := amt; timestamp := now |}) s,
     [reply (ConfirmTransfer amt recipient (lamportsToSol env l))]).
Proof.
  intros Hge. unfold onText_resume, onText_commit, onText_catch. unfold_monad.
  simpl. rewrite Hge. reflexivity.
Qed.

(** Whatever the two requests, if both are valid and affordable and the
    handlers advance in lock step, both are accepted and the second
    proposal replaces the first. *)
Lemma lock_step_both_accepted s u kp r0 a0 r1 a1 l0 l1 n0 n1 :
  u ≠ "" → USERS s !! u = Some kp → PENDING_TRANSACTIONS s !! u = None →
  valid_request env r0 a0 → valid_request env r1 a1 →
  num_lt (lamportsToSol env l0) (parseFloat env a0) = false →
  num_lt (lamportsToSol env l1) (parseFloat env a1) = false →
  let p := schedule env
             {| shared := s;
                tasks := [Received (Some u) [r0; a0]; Received (Some u) [r1; a1]];
                output := [] |}
             (in_lock_step (Ok l0) n0 (Ok l1) n1) in
  output_of 0 p
  = [reply (ConfirmTransfer (parseFloat env a0) r0 (lamportsToSol env l0))] ∧
  output_of 1 p
  = [reply (ConfirmTransfer (parseFloat env a1) r1 (lamportsToSol env l1))] ∧
  PENDING_TRANSACTIONS (shared p) !! u
  = Some {| recipientAddress := r1; amount := parseFloat env a1; timestamp := n1 |}.
Proof.
  intros Hu Hk Hp Hv0 Hv1 Hge0 Hge1.
  pose proof Hv0 as (_ & _ & _ & _ & Hpk0). pose proof Hv1 as (_ & _ & _ & _ & Hpk1).
  set (tx0 := {| recipientAddress := r0; amount := parseFloat env a0; timestamp := n0 |}).
  set (tx1 := {| recipientAddress := r1; amount := parseFloat env a1; timestamp := n1 |}).
  assert (schedule env
            {| shared := s;
               tasks := [Received (Some u) [r0; a0]; Received (Some u) [r1; a1]];
               output := [] |}
            (in_lock_step (Ok l0) n0 (Ok l1) n1)
          = {| shared := set_PENDING_TRANSACTIONS (insert u tx1)
                           (set_PENDING_TRANSACTIONS (insert u tx0) s);
               tasks := [Finished; Finished];
               output :=
                 [(0%nat, reply (ConfirmTransfer (parseFloat env a0) r0
                                   (lamportsToSol env l0)));
                  (1%nat, reply (ConfirmTransfer (parseFloat env a1) r1
                                   (lamportsToSol env l1)))] |}) as E.
  { unfold schedule, in_lock_step. simpl fold_left.
    unfold turn at 6. simpl. rewrite (resume_received s u kp r0 a0 _ _ Hu Hk Hv0). simpl.
    unfold turn at 5. simpl. rewrite (resume_received s u kp r1 a1 _ _ Hu Hk Hv1). simpl.
    unfold turn at 4. simpl. rewrite (resume_checked s u kp r0 _ _ _ Hk Hp Hpk0). simpl.
    unfold turn at 3. simpl. rewrite (resume_checked s u kp r1 _ _ _ Hk Hp Hpk1). simpl.
    unfold turn at 2. simpl. rewrite (resume_stores s u kp r0 _ l0 n0 Hge0). simpl.
    unfold turn at 1. simpl. rewrite (resume_stores _ u kp r1 _ l1 n1 Hge1). simpl.
    reflexivity. }
  cbv zeta. rewrite E. unfold output_of. simpl.
  split; [done|]. split; [done|]. apply lookup_insert_eq.
Qed.

End Overlap.

(** ** The properties on concrete runs *)

Lemma with_wallet_reachable : reachable sample_env with_wallet.
Proof. apply reachable_step, reachable_initial. Qed.

Lemma with_proposal_reachable : reachable sample_env with_proposal.
Proof. apply reachable_step, with_wallet_reachable. Qed.

Lemma with_proposal_pending :
  PENDING_TRANSACTIONS with_proposal !! alice = Some half_sol_to_addr1.
Proof. vm_compute. reflexivity. Qed.

Lemma alice_nonempty : alice ≠ "".
Proof. discriminate. Qed.

(** C1, counterexample: with a transfer pending, the text
    "<addr2> 0" is answered with "Invalid amount", not with "You already
    have a pending transaction". *)
Lemma C1_counterexample :
  reachable sample_env with_proposal ∧
  PENDING_TRANSACTIONS with_proposal !! alice = Some half_sol_to_addr1 ∧
  onText sample_env (Some alice) [addr2; "0"] (Ok 1000000000) 2000 with_proposal
  = (Ok tt, with_proposal, [reply InvalidAmount]) ∧
  reply AlreadyPending
    ∉ run_trace (onText sample_env (Some alice) [addr2; "0"] (Ok 1000000000) 2000)
        with_proposal.
Proof.
  split; [exact with_proposal_reachable|]. split; [exact with_proposal_pending|].
  assert (onText sample_env (Some alice) [addr2; "0"] (Ok 1000000000) 2000 with_proposal
          = (Ok tt, with_proposal, [reply InvalidAmount])) as E
    by (vm_compute; reflexivity).
  split; [exact E|]. unfold run_trace. rewrite E. simpl.
  intros H. apply list_elem_of_singleton in H. discriminate H.
Qed.

(** With 0.5 SOL to [addr1] pending, a second valid text is rejected and
    an invalid one changes nothing. *)
Lemma C1_witness :
  reachable sample_env with_proposal ∧
  PENDING_TRANSACTIONS with_proposal !! alice = Some half_sol_to_addr1 ∧
  run_state (onText sample_env (Some alice) [addr2; "0"] (Ok 1000000000) 2000)
    with_proposal = with_proposal ∧
  onText sample_env (Some alice) [addr2; "0.7"] (Ok 1000000000) 2000 with_proposal
  = (Ok tt, with_proposal, [reply AlreadyPending]).
Proof.
  split; [exact with_proposal_reachable|]. split; [exact with_proposal_pending|].
  destruct (C1_propose_while_pending sample_env with_proposal alice half_sol_to_addr1
              with_proposal_reachable with_proposal_pending) as (_ & Hsame & Hrej).
  split.
  - apply (Hsame [addr2; "0"] (Ok 1000000000) 2000).
  - apply Hrej; [discriminate | discriminate | | | ]; vm_compute; reflexivity.
Defined.

(** The balance has dropped to 0.1 SOL when the 0.5 SOL transfer is
    confirmed. *)
Lemma C2_witness :
  reachable sample_env with_proposal ∧
  PENDING_TRANSACTIONS with_proposal !! alice = Some half_sol_to_addr1 ∧
  num_lt (lamportsToSol sample_env 100000000) (amount half_sol_to_addr1) = true ∧
  handleConfirmSendSol sample_env (Some alice) (Ok 100000000) (Ok "unused") with_proposal
  = (Ok tt, set_PENDING_TRANSACTIONS (delete alice) with_proposal,
     [answerCbQuery (Some "Processing transaction...");
      editMessageText (InsufficientBalance (lamportsToSol sample_env 100000000))]).
Proof.
  assert (num_lt (lamportsToSol sample_env 100000000) (amount half_sol_to_addr1) = true)
    as Hlt by (vm_compute; reflexivity).
  split; [exact with_proposal_reachable|]. split; [exact with_proposal_pending|].
  split; [exact Hlt|].
  apply (C2_confirm_insufficient_balance sample_env with_proposal alice
           half_sol_to_addr1 100000000 (Ok "unused")
           with_proposal_reachable with_proposal_pending Hlt).
Defined.

(** Confirming with nothing pending, and confirming the 0.5 SOL transfer
    with 1 SOL on the account. *)
Lemma C3_witness :
  alice ≠ "" ∧
  handleConfirmSendSol sample_env (Some alice) (Ok 1000000000) (Ok "5VERv8NMvzbJ")
    with_wallet
  = (Ok tt, with_wallet,
     [answerCbQuery (Some "Processing transaction...");
      editMessageText TransactionExpired]) ∧
  handleConfirmSendSol sample_env (Some alice) (Ok 1000000000) (Ok "5VERv8NMvzbJ")
    with_proposal
  = (Ok tt, set_PENDING_TRANSACTIONS (delete alice) with_proposal,
     [answerCbQuery (Some "Processing transaction...");
      editMessageText (SolSent (Fin (1 # 2)) addr1 "5VERv8NMvzbJ")]).
Proof.
  split; [exact alice_nonempty|]. split.
  - apply (C3_confirm sample_env with_wallet alice alice_nonempty).
    vm_compute. reflexivity.
  - apply (proj2 (C3_confirm sample_env with_proposal alice alice_nonempty)
             with_proposal_reachable half_sol_to_addr1 1000000000 "5VERv8NMvzbJ"
             with_proposal_pending).
    vm_compute. reflexivity.
Defined.

(** C4, the failing run: two export requests of the same user whose
    handlers both pass the pending check before either key message is sent
    both show the key and both schedule a retraction, so the user has two
    retractions pending at once behind a single entry; neither request is
    answered with the "wait" message.  When the first callback fires it
    removes the entry although the second retraction is still
    scheduled. *)
Theorem C4_overlapping_exports_two_reveals :
  let p := reveal_schedule two_exports (exports_in_lock_step (Ok 7) (Ok 8)) in
  let key := PrivateKey (secretKey (keypairFromMnemonic sample_env "abandon ability able")) in
  reveal_output_of 0 p = [answerCbQuery None; sendMessage key alice true] ∧
  reveal_output_of 1 p = [answerCbQuery None; sendMessage key alice true] ∧
  reveal_tasks p = [ExportDone; ExportDone] ∧
  timers (reveal_shared p) = [mkTimer 0 alice 7; mkTimer 1 alice 8] ∧
  retractions_of alice (reveal_shared p) = 2%nat ∧
  sessions_of alice (reveal_shared p) = 1%nat ∧
  PENDING_DELETIONS (reveal_shared p) !! alice = Some 1%nat ∧
  PENDING_DELETIONS (step sample_env (reveal_shared p) (TimerFires 0 (Ok tt))) !! alice
  = None ∧
  retractions_of alice (step sample_env (reveal_shared p) (TimerFires 0 (Ok tt)))
  = 1%nat.
Proof. vm_compute. repeat split; reflexivity. Qed.

(** The same two requests handled one after the other: the second is
    answered with the "wait" message and one retraction is scheduled. *)
Lemma sequential_exports_one_reveal :
  let p := reveal_schedule two_exports (exports_one_after_the_other (Ok 7) (Ok 8)) in
  reveal_output_of 1 p = [answerCbQuery None; sendMessage PrivateKeyWait alice true] ∧
  timers (reveal_shared p) = [mkTimer 0 alice 7] ∧
  retractions_of alice (reveal_shared p) = 1%nat.
Proof. vm_compute. repeat split; reflexivity. Qed.

(** A second provisioning request of [alice]. *)
Lemma C6_witness :
  alice ≠ "" ∧
  handleGenerateWallet sample_env (Some alice) (Ok "zoo zone zero") (Ok 5) with_wallet
  = (Ok tt, with_wallet,
     [answerCbQuery (Some "Generating wallet...");
      sendMessage WalletExists alice true]).
Proof.
  split; [exact alice_nonempty|].
  apply (C6_provision_idempotent sample_env initial alice "abandon ability able"
           (Ok 0) (Ok "zoo zone zero") (Ok 5) alice_nonempty).
Defined.

(** 3 SOL requested with 2 SOL on the account. *)
Lemma C7_witness :
  onText sample_env (Some alice) [addr1; "3"] (Ok 2000000000) 2000 with_wallet
  = (Ok tt, with_wallet,
     [reply (InsufficientTried (lamportsToSol sample_env 2000000000) (Fin 3))]) ∧
  PENDING_TRANSACTIONS
    (run_state (onText sample_env (Some alice) [addr1; "3"] (Ok 2000000000) 2000)
       with_wallet) !! alice = None.
Proof.
  apply (C7_propose_insufficient_balance sample_env with_wallet alice
           (keypairFromMnemonic sample_env "abandon ability able") addr1 "3"
           2000000000 2000 alice_nonempty);
    first [discriminate | vm_compute; reflexivity].
Defined.

(** C8, counterexample: cancelling with a transfer pending and cancelling
    with nothing pending end with the same result and make the same
    calls; nothing tells whether a proposal existed. *)
Lemma C8_counterexample :
  PENDING_TRANSACTIONS with_proposal !! alice = Some half_sol_to_addr1 ∧
  PENDING_TRANSACTIONS with_wallet !! alice = None ∧
  (run_result (handleCancelSendSol (Some alice)) with_proposal,
   run_trace (handleCancelSendSol (Some alice)) with_proposal)
  = (run_result (handleCancelSendSol (Some alice)) with_wallet,
     run_trace (handleCancelSendSol (Some alice)) with_wallet).
Proof.
  split; [exact with_proposal_pending|]. split; vm_compute; reflexivity.
Qed.

(** Cancelling the pending 0.5 SOL transfer. *)
Lemma C8_witness :
  alice ≠ "" ∧
  handleCancelSendSol (Some alice) with_proposal
  = (Ok tt, set_PENDING_TRANSACTIONS (delete alice) with_proposal,
     [answerCbQuery (Some "Transaction cancelled");
      editMessageText TransactionCancelled]) ∧
  PENDING_TRANSACTIONS (run_state (handleCancelSendSol (Some alice)) with_proposal)
    !! alice = None.
Proof.
  split; [exact alice_nonempty|].
  destruct (C8_cancel with_proposal alice alice_nonempty) as (E & Hgone & _).
  split; [exact E | exact Hgone].
Defined.

(** C9, the failing run: two texts of the same user whose handlers both
    pass the pending check before either balance query settles are both
    answered with the confirmation prompt, neither with "You already have
    a pending transaction", and the proposal stored last replaces the
    first one. *)
Theorem C9_overlapping_proposals_both_accepted :
  let p := schedule sample_env two_texts overlapping in
  output_of 0 p
  = [reply (ConfirmTransfer (Fin (1 # 2)) addr1 (lamportsToSol sample_env 1000000000))] ∧
  output_of 1 p
  = [reply (ConfirmTransfer (Fin (7 # 10)) addr2 (lamportsToSol sample_env 1000000000))] ∧
  tasks p = [Finished; Finished] ∧
  PENDING_TRANSACTIONS (shared p) !! alice
  = Some {| recipientAddress := addr2; amount := Fin (7 # 10); timestamp := 1001 |}.
Proof. vm_compute. repeat split; reflexivity. Qed.

(** The same two texts handled one after the other: the second is
    rejected and the first proposal stays. *)
Lemma sequential_proposals_one_accepted :
  let p := schedule sample_env two_texts one_after_the_other in
  output_of 0 p
  = [reply (ConfirmTransfer (Fin (1 # 2)) addr1 (lamportsToSol sample_env 1000000000))] ∧
  output_of 1 p = [reply AlreadyPending] ∧
  PENDING_TRANSACTIONS (shared p) !! alice = Some half_sol_to_addr1.
Proof. vm_compute. repeat split; reflexivity. Qed.

(** The first provisioning request of [alice] with the node unreachable. *)
Lemma C10_witness :
  alice ≠ "" ∧
  USERS initial !! alice = None ∧
  handleGenerateWallet sample_env (Some alice) (Ok "abandon ability able")
    (Throw (mkError "fetch failed")) initial
  = (Ok tt,
     set_USERS (insert alice (keypairFromMnemonic sample_env "abandon ability able"))
       initial,
     [answerCbQuery (Some "Generating wallet...");
      console_error "Error fetching balance:" (mkError "fetch failed");
      console_error "Error in generate_wallet handler:"
        (mkError "Failed to fetch balance. Please try again later.");
      answerCbQuery (Some "Something went wrong!")]).
Proof.
  assert (USERS initial !! alice = None) as Hnone by (vm_compute; reflexivity).
  split; [exact alice_nonempty|]. split; [exact Hnone|].
  apply (C10_provision_not_atomic sample_env initial alice "abandon ability able"
           (mkError "fetch failed") alice_nonempty Hnone).
Defined.

(** * Further properties of the handlers *)

(** ** Helpers *)

Section MoreHelpers.

Variable env : Env.

Lemma set_PENDING_TRANSACTIONS_delete_insert s u tx :
  PENDING_TRANSACTIONS s !! u = None →
  set_PENDING_TRANSACTIONS (delete u) (set_PENDING_TRANSACTIONS (insert u tx) s) = s.
Proof.
  intros Hp. destruct s. unfold set_PENDING_TRANSACTIONS. simpl in *.
  f_equal. rewrite delete_insert_eq. by apply delete_id.
Qed.

Lemma onText_accepts s u kp recipient amountStr l now :
  u ≠ "" → USERS s !! u = Some kp → PENDING_TRANSACTIONS s !! u = None →
  valid_request env recipient amountStr →
  num_lt (lamportsToSol env l) (parseFloat env amountStr) = false →
  onText env (Some u) [recipient; amountStr] (Ok l) now s
  = (Ok tt,
     set_PENDING_TRANSACTIONS
       (insert u {| recipientAddress := recipient;
                    amount := parseFloat env amountStr;
                    timestamp := now |}) s,
     [reply (ConfirmTransfer (parseFloat env amountStr) recipient
               (lamportsToSol env l))]).
Proof.
  intros Hu Hk Hp (Hr & Ha & Hnan & Hpos & Hpk) Hge.
  unfold onText, onText_resume, onText_begin, hasWallet. unfold_monad.
  rewrite (eqb_empty_false u Hu), (eqb_empty_false recipient Hr),
    (eqb_empty_false amountStr Ha), Hk, Hnan, Hpos. simpl.
  unfold onText_check, onText_catch. unfold_monad.
  rewrite Hpk, Hp, Hk. simpl.
  unfold onText_commit, onText_catch. unfold_monad. simpl.
  rewrite Hge. reflexivity.
Qed.

Lemma confirm_submits s u kp tx l signature :
  u ≠ "" → USERS s !! u = Some kp → PENDING_TRANSACTIONS s !! u = Some tx →
  valid_address env (recipientAddress tx) →
  num_lt (lamportsToSol env l) (amount tx) = false →
  handleConfirmSendSol env (Some u) (Ok l) (Ok signature) s
  = (Ok tt, set_PENDING_TRANSACTIONS (delete u) s,
     [answerCbQuery (Some "Processing transaction...");
      editMessageText (SolSent (amount tx) (recipientAddress tx) signature)]).
Proof.
  intros Hu Hk Hp Ha Hge. unfold handleConfirmSendSol. unfold_monad.
  rewrite (validateUserId_nonempty u Hu), Hk, Hp, Ha. simpl.
  rewrite Hge. reflexivity.
Qed.

Lemma cancel_result s u :
  u ≠ "" →
  handleCancelSendSol (Some u) s
  = (Ok tt, set_PENDING_TRANSACTIONS (delete u) s,
     [answerCbQuery (Some "Transaction cancelled");
      editMessageText TransactionCancelled]).
Proof.
  intros Hu. unfold handleCancelSendSol. unfold_monad.
  rewrite (validateUserId_nonempty u Hu). simpl.
  destruct (PENDING_TRANSACTIONS s !! u) eqn:Hp; simpl; [done|].
  destruct s. unfold set_PENDING_TRANSACTIONS. simpl in *.
  by rewrite delete_id.
Qed.

End MoreHelpers.

(** ** Expiry, confirmation and cancellation *)

Section MoreTransfers.

Variable env : Env.

(** X1: the sweep keeps exactly the proposals that are at most five
    minutes old (one that is exactly five minutes old stays), touches
    nothing else and tells nobody. *)
Theorem X1_sweep_keeps_recent (s : State) (now : Z) :
  (∀ u tx,
     PENDING_TRANSACTIONS (run_state (sweep now) s) !! u = Some tx
     ↔ PENDING_TRANSACTIONS s !! u = Some tx ∧ now - timestamp tx ≤ 300000) ∧
  USERS (run_state (sweep now) s) = USERS s ∧
  PENDING_DELETIONS (run_state (sweep now) s) = PENDING_DELETIONS s ∧
  timers (run_state (sweep now) s) = timers s ∧
  run_trace (sweep now) s = [].
Proof.
  unfold sweep. unfold_monad. simpl. split; [|done].
  intros u tx. rewrite map_lookup_filter_Some. simpl. unfold fiveMinutes.
  split; intros [H1 H2]; (split; [done | lia]).
Qed.

(** X2: once a sweep has run more than five minutes after a proposal was
    stored, confirming it answers "Transaction expired or invalid." and
    changes nothing. *)
Theorem X2_swept_proposal_cannot_be_confirmed s u tx now rpcBalance rpcSend :
  u ≠ "" →
  PENDING_TRANSACTIONS s !! u = Some tx →
  300000 < now - timestamp tx →
  let s1 := step env s (Sweep now) in
  PENDING_TRANSACTIONS s1 !! u = None ∧
  handleConfirmSendSol env (Some u) rpcBalance rpcSend s1
  = (Ok tt, s1,
     [answerCbQuery (Some "Processing transaction...");
      editMessageText TransactionExpired]).
Proof.
  intros Hu Hp Hold s1.
  assert (PENDING_TRANSACTIONS s1 !! u = None) as Hnone.
  { unfold s1, step. simpl. unfold sweep. unfold_monad. simpl.
    apply map_lookup_filter_None. right. intros tx' Hp' Hkeep.
    simpl in Hkeep. unfold fiveMinutes in Hkeep.
    assert (tx' = tx) as -> by congruence. lia. }
  split; [done|]. by apply confirm_nothing_pending.
Qed.

(** X3: whatever the node answers, a confirm that finds a proposal ends
    normally, removes that proposal and no other, and never answers
    "Invalid recipient address." or "Transaction expired or invalid.":
    the address was checked when the proposal was stored. *)
Theorem X3_confirm_consumes_proposal s u tx rpcBalance rpcSend :
  reachable env s →
  PENDING_TRANSACTIONS s !! u = Some tx →
  let m := handleConfirmSendSol env (Some u) rpcBalance rpcSend in
  run_result m s = Ok tt ∧
  run_state m s = set_PENDING_TRANSACTIONS (delete u) s ∧
  PENDING_TRANSACTIONS (run_state m s) !! u = None ∧
  (∀ v, v ≠ u →
     PENDING_TRANSACTIONS (run_state m s) !! v = PENDING_TRANSACTIONS s !! v) ∧
  (editMessageText InvalidRecipient ∉ run_trace m s) ∧
  (editMessageText TransactionExpired ∉ run_trace m s).
Proof.
  intros Hr Hp m. pose proof (wf_reachable env s Hr) as Hwf.
  destruct (wf_transfer env s Hwf u tx Hp) as [[kp Hk] Ha].
  assert (u ≠ "") as Hu by (apply (wf_users env s Hwf); eauto).
  assert (∃ tr, m s = (Ok tt, set_PENDING_TRANSACTIONS (delete u) s, tr) ∧
                (editMessageText InvalidRecipient ∉ tr) ∧
                (editMessageText TransactionExpired ∉ tr)) as (tr & E & H1 & H2).
  { unfold m, handleConfirmSendSol. unfold_monad.
    rewrite (validateUserId_nonempty u Hu), Hk, Hp, Ha. simpl.
    destruct rpcBalance as [l|e]; simpl.
    - destruct (num_lt (lamportsToSol env l) (amount tx)); simpl.
      + eexists. split; [reflexivity|]. split; intros H;
          repeat (apply elem_of_cons in H as [H|H]; [discriminate H|]);
          by apply not_elem_of_nil in H.
      + destruct rpcSend as [sig|e]; simpl;
          (eexists; split; [reflexivity|]; split; intros H;
           repeat (apply elem_of_cons in H as [H|H]; [discriminate H|]);
           by apply not_elem_of_nil in H).
    - eexists. split; [reflexivity|]. split; intros H;
        repeat (apply elem_of_cons in H as [H|H]; [discriminate H|]);
        by apply not_elem_of_nil in H. }
  unfold run_result, run_state, run_trace. rewrite E. simpl.
  split; [done|]. split; [done|]. split; [apply lookup_delete_eq|].
  split; [|done]. intros v Hv. by apply lookup_delete_ne.
Qed.

(** X4: a confirm whose balance query or whose submission fails tells
    the user "Failed to send SOL. Please try again." after logging the
    error twice, and the proposal is gone: there is nothing to retry. *)
Theorem X4_confirm_failures s u tx :
  reachable env s →
  PENDING_TRANSACTIONS s !! u = Some tx →
  (∀ error rpcSend,
     handleConfirmSendSol env (Some u) (Throw error) rpcSend s
     = (Ok tt, set_PENDING_TRANSACTIONS (delete u) s,
        [answerCbQuery (Some "Processing transaction...");
         console_error "Error fetching balance:" error;
         console_error "SOL transfer error:"
           (mkError "Failed to fetch balance. Please try again later.");
         editMessageText FailedToSend])) ∧
  (∀ l error,
     num_lt (lamportsToSol env l) (amount tx) = false →
     handleConfirmSendSol env (Some u) (Ok l) (Throw error) s
     = (Ok tt, set_PENDING_TRANSACTIONS (delete u) s,
        [answerCbQuery (Some "Processing transaction...");
         console_error "Error sending SOL:" error;
         console_error "SOL transfer error:"
           (mkError "Failed to send SOL. Please check your balance and try again.");
         editMessageText FailedToSend])).
Proof.
  intros Hr Hp. pose proof (wf_reachable env s Hr) as Hwf.
  destruct (wf_transfer env s Hwf u tx Hp) as [[kp Hk] Ha].
  assert (u ≠ "") as Hu by (apply (wf_users env s Hwf); eauto).
  split.
  - intros error rpcSend. unfold handleConfirmSendSol. unfold_monad.
    rewrite (validateUserId_nonempty u Hu), Hk, Hp, Ha. reflexivity.
  - intros l error Hge. unfold handleConfirmSendSol. unfold_monad.
    rewrite (validateUserId_nonempty u Hu), Hk, Hp, Ha. simpl.
    rewrite Hge. reflexivity.
Qed.

(** X5: what was proposed is what is sent: after an accepted proposal, a
    confirm with enough balance and a successful submission reports the
    proposed amount and recipient with the signature, and the state is
    the one before the proposal. *)
Theorem X5_propose_then_confirm s u kp recipient amountStr l0 now l1 signature :
  u ≠ "" → USERS s !! u = Some kp → PENDING_TRANSACTIONS s !! u = None →
  valid_request env recipient amountStr →
  num_lt (lamportsToSol env l0) (parseFloat env amountStr) = false →
  num_lt (lamportsToSol env l1) (parseFloat env amountStr) = false →
  exec env [Text (Some u) [recipient; amountStr] (Ok l0) now;
            ConfirmSendSol (Some u) (Ok l1) (Ok signature)] s
  = (s,
     [reply (ConfirmTransfer (parseFloat env amountStr) recipient (lamportsToSol env l0));
      answerCbQuery (Some "Processing transaction...");
      editMessageText (SolSent (parseFloat env amountStr) recipient signature)]).
Proof.
  intros Hu Hk Hp Hv Hge0 Hge1. pose proof Hv as (_ & _ & _ & _ & Hpk).
  simpl. rewrite (onText_accepts env s u kp recipient amountStr l0 now Hu Hk Hp Hv Hge0).
  set (tx := {| recipientAddress := recipient; amount := parseFloat env amountStr;
                timestamp := now |}).
  rewrite (confirm_submits env (set_PENDING_TRANSACTIONS (insert u tx) s) u kp tx
             l1 signature Hu Hk); simpl;
    [|apply lookup_insert_eq | exact Hpk | exact Hge1].
  by rewrite set_PENDING_TRANSACTIONS_delete_insert.
Qed.

(** X6: after a cancel nothing is left to confirm, and a new proposal of
    the same user is accepted. *)
Theorem X6_cancel_then_confirm_or_propose s u tx :
  reachable env s →
  PENDING_TRANSACTIONS s !! u = Some tx →
  let s1 := step env s (CancelSendSol (Some u)) in
  (∀ rpcBalance rpcSend,
     handleConfirmSendSol env (Some u) rpcBalance rpcSend s1
     = (Ok tt, s1,
        [answerCbQuery (Some "Processing transaction...");
         editMessageText TransactionExpired])) ∧
  (∀ recipient amountStr l now,
     valid_request env recipient amountStr →
     num_lt (lamportsToSol env l) (parseFloat env amountStr) = false →
     PENDING_TRANSACTIONS
       (run_state (onText env (Some u) [recipient; amountStr] (Ok l) now) s1) !! u
     = Some {| recipientAddress := recipient;
               amount := parseFloat env amountStr;
               timestamp := now |}).
Proof.
  intros Hr Hp s1. pose proof (wf_reachable env s Hr) as Hwf.
  destruct (wf_transfer env s Hwf u tx Hp) as [[kp Hk] _].
  assert (u ≠ "") as Hu by (apply (wf_users env s Hwf); eauto).
  assert (s1 = set_PENDING_TRANSACTIONS (delete u) s) as ->.
  { unfold s1, step, run_state. simpl. by rewrite (cancel_result s u Hu). }
  split.
  - intros. by apply confirm_after_removal.
  - intros recipient amountStr l now Hv Hge. unfold run_state.
    rewrite (onText_accepts env _ u kp recipient amountStr l now Hu); simpl;
      [apply lookup_insert_eq | exact Hk | apply lookup_delete_eq | exact Hv | exact Hge].
Qed.

End MoreTransfers.

(** ** What the text handler does with texts it does not accept *)

Ltac not_in_trace :=
  let H := fresh "H" in
  intros H;
  repeat (apply elem_of_cons in H as [H|H]; [discriminate H|]);
  by apply not_elem_of_nil in H.

Section SplitOn.

Variable sep : Ascii.ascii.

Lemma split_on_head_empty s ps :
  split_on sep s = "" :: ps → s = "" ∨ starts_with sep s = true.
Proof.
  destruct s as [|c rest]; simpl; [by left|].
  destruct (Ascii.eqb c sep); [by right|].
  destruct (split_on sep rest); discriminate.
Qed.

Lemma split_on_not_nil s : split_on sep s ≠ [].
Proof.
  destruct s as [|c rest]; simpl; [done|].
  destruct (Ascii.eqb c sep); [done|]. by destruct (split_on sep rest).
Qed.

Lemma split_on_last_empty s :
  last (split_on sep s) = Some "" → s = "" ∨ ends_with sep s = true.
Proof.
  induction s as [|c rest IH]; [by left|]. intros Hlast. right.
  cbn [split_on] in Hlast.
  destruct (split_on sep rest) as [|p ps] eqn:Hs;
    [by apply split_on_not_nil in Hs|].
  destruct (Ascii.eqb c sep) eqn:Hc.
  - destruct rest as [|c' rest']; [simpl; by rewrite Hc|].
    rewrite last_cons_cons in Hlast.
    destruct (IH Hlast) as [?|?]; [discriminate | done].
  - destruct ps as [|p' ps']; [discriminate Hlast|].
    rewrite last_cons_cons in Hlast. rewrite last_cons_cons in IH.
    destruct (IH Hlast) as [->|He]; [discriminate Hs|].
    destruct rest; [discriminate He | done].
Qed.

Lemma split_on_two_parts s p0 p1 :
  starts_with sep s = false → ends_with sep s = false →
  split_on sep s = [p0; p1] → p0 ≠ "" ∧ p1 ≠ "".
Proof.
  intros Hs He Hsplit. split; intros ->.
  - destruct (split_on_head_empty s [p1] Hsplit) as [->|H]; [discriminate Hsplit|].
    congruence.
  - destruct (split_on_last_empty s) as [->|H].
    + by rewrite Hsplit.
    + discriminate Hsplit.
    + congruence.
Qed.

End SplitOn.

Section Texts.

Variable env : Env.

(** X7: a text of a user without a wallet, or a text that does not split
    into exactly two parts, is ignored: no reply, no change. *)
Theorem X7_text_ignored s userId parts rpc now :
  (∀ u, userId = Some u → USERS s !! u = None) ∨ length parts ≠ 2%nat →
  onText env userId parts rpc now s = (Ok tt, s, []).
Proof.
  intros H. unfold onText, onText_resume, onText_begin, hasWallet. unfold_monad.
  destruct userId as [u|]; simpl; [|done].
  destruct (String.eqb u ""); simpl; [done|].
  destruct (USERS s !! u) as [kp|] eqn:Hk; simpl; [|done].
  destruct H as [H|H]; [specialize (H u eq_refl); congruence|].
  by destruct parts as [|r [|a [|? ?]]].
Qed.

(** X8: an amount that does not parse or is not above zero is answered
    with "Invalid amount" whatever the recipient, the balance and the
    pending proposals are, and nothing changes. *)
Theorem X8_invalid_amount s u kp recipient amountStr rpc now :
  u ≠ "" → USERS s !! u = Some kp →
  recipient ≠ "" → amountStr ≠ "" →
  isNaN (parseFloat env amountStr) || num_le (parseFloat env amountStr) zero = true →
  onText env (Some u) [recipient; amountStr] rpc now s
  = (Ok tt, s, [reply InvalidAmount]).
Proof.
  intros Hu Hk Hr Ha Hbad.
  unfold onText, onText_resume, onText_begin, hasWallet. unfold_monad.
  rewrite (eqb_empty_false u Hu), (eqb_empty_false recipient Hr),
    (eqb_empty_false amountStr Ha), Hk, Hbad. reflexivity.
Qed.

(** X9: when the recipient does not parse as a public key the error is
    logged and the user is told "Invalid recipient address" if the
    message of the error contains "Invalid public key input", "Invalid
    transaction format" otherwise; nothing is stored and the balance is
    not looked at. *)
Theorem X9_invalid_recipient s u kp recipient amountStr error rpc now :
  u ≠ "" → USERS s !! u = Some kp →
  recipient ≠ "" → amountStr ≠ "" →
  isNaN (parseFloat env amountStr) = false →
  num_le (parseFloat env amountStr) zero = false →
  newPublicKey env recipient = Throw error →
  onText env (Some u) [recipient; amountStr] rpc now s
  = (Ok tt, s,
     [console_error "SOL transfer preparation error:" error;
      reply (if includes "Invalid public key input" (message error)
             then InvalidRecipientRetry else InvalidTransactionFormat)]).
Proof.
  intros Hu Hk Hr Ha Hnan Hpos Hpk.
  unfold onText, onText_resume, onText_begin, hasWallet. unfold_monad.
  rewrite (eqb_empty_false u Hu), (eqb_empty_false recipient Hr),
    (eqb_empty_false amountStr Ha), Hk, Hnan, Hpos. simpl.
  unfold onText_check, onText_catch. unfold_monad.
  rewrite Hpk. by destruct (includes _ _).
Qed.

(** X10: when the balance query of an otherwise acceptable request
    fails, nothing is stored and the user is told "Invalid transaction
    format. Please try again." *)
Theorem X10_propose_balance_failure s u kp recipient amountStr error now :
  u ≠ "" → USERS s !! u = Some kp → PENDING_TRANSACTIONS s !! u = None →
  valid_request env recipient amountStr →
  onText env (Some u) [recipient; amountStr] (Throw error) now s
  = (Ok tt, s,
     [console_error "Error fetching balance:" error;
      console_error "SOL transfer preparation error:"
        (mkError "Failed to fetch balance. Please try again later.");
      reply InvalidTransactionFormat]).
Proof.
  intros Hu Hk Hp (Hr & Ha & Hnan & Hpos & Hpk).
  unfold onText, onText_resume, onText_begin, hasWallet. unfold_monad.
  rewrite (eqb_empty_false u Hu), (eqb_empty_false recipient Hr),
    (eqb_empty_false amountStr Ha), Hk, Hnan, Hpos. simpl.
  unfold onText_check, onText_catch. unfold_monad.
  rewrite Hpk, Hp, Hk. reflexivity.
Qed.

Lemma onText_never_invalid_format s userId parts rpc now :
  (∀ r a, parts = [r; a] → r ≠ "" ∧ a ≠ "") →
  reply InvalidFormat ∉ run_trace (onText env userId parts rpc now) s.
Proof.
  intros Hparts.
  unfold onText, onText_resume, onText_begin, hasWallet. unfold_monad.
  destruct userId as [u|]; simpl; [|not_in_trace].
  destruct (String.eqb u "" || _); simpl; [not_in_trace|].
  destruct parts as [|r [|a [|? ?]]]; simpl; try not_in_trace.
  destruct (Hparts r a eq_refl) as [Hr Ha].
  rewrite (eqb_empty_false r Hr), (eqb_empty_false a Ha). simpl.
  destruct (isNaN _ || _); simpl; [not_in_trace|].
  unfold onText_check, onText_catch. unfold_monad.
  destruct (newPublicKey env r) as [[]|e]; simpl.
  2: { destruct (includes _ _); simpl; not_in_trace. }
  destruct (PENDING_TRANSACTIONS s !! u); simpl; [not_in_trace|].
  destruct (USERS s !! u); simpl; [|not_in_trace].
  unfold onText_commit, onText_catch. unfold_monad.
  destruct rpc as [l|e]; simpl; [|not_in_trace].
  destruct (num_lt _ _); simpl; not_in_trace.
Qed.

(** X11: a text that neither starts nor ends with a space (as every
    trimmed text) never gets the answer "Invalid format. Please use:
    <address> <amount>": when it splits into two parts, both are
    non-empty. *)
Theorem X11_invalid_format_unreachable s userId text rpc now :
  starts_with (Ascii.ascii_of_nat 32) text = false →
  ends_with (Ascii.ascii_of_nat 32) text = false →
  reply InvalidFormat ∉ run_trace (onTextMessage env userId text rpc now) s.
Proof.
  intros Hs He. unfold onTextMessage. apply onText_never_invalid_format.
  intros r a Hsplit. by eapply split_on_two_parts.
Qed.

End Texts.

(** ** More invariants of the reachable states *)

Section MoreInvariants.

Variable env : Env.

Lemma onText_state_amount userId parts rpc now s :
  let s' := run_state (onText env userId parts rpc now) s in
  s' = s ∨
  ∃ u tx, isNaN (amount tx) = false ∧ num_le (amount tx) zero = false ∧
          s' = set_PENDING_TRANSACTIONS (insert u tx) s.
Proof.
  unfold onText, onText_resume, onText_begin, hasWallet. unfold_monad.
  destruct userId as [u|]; simpl; [|by left].
  destruct (String.eqb u "" || _); simpl; [by left|].
  destruct parts as [|recipient [|amountStr [|? ?]]]; simpl; try by left.
  destruct (String.eqb recipient "" || String.eqb amountStr ""); simpl; [by left|].
  destruct (isNaN (parseFloat env amountStr) || num_le (parseFloat env amountStr) zero)
    eqn:Hbad; simpl; [by left|].
  apply orb_false_elim in Hbad as [Hnan Hpos].
  unfold onText_check, onText_catch. unfold_monad.
  destruct (newPublicKey env recipient) as [[]|e]; simpl.
  2: { destruct (includes _ _); simpl; by left. }
  destruct (PENDING_TRANSACTIONS s !! u); simpl; [by left|].
  destruct (USERS s !! u); simpl; [|by left].
  unfold onText_commit, onText_catch. unfold_monad.
  destruct rpc as [l|e]; simpl; [|by left].
  destruct (num_lt _ _); simpl; [by left|].
  right. eexists u, _. split; [|split; [|reflexivity]]; done.
Qed.

Lemma amounts_valid_step s ev : amounts_valid s → amounts_valid (step env s ev).
Proof.
  intros Hv. unfold step. destruct ev; simpl.
  - by destruct (handleGenerateWallet_state env userId entropy rpc s)
      as [->|(u & m & _ & _ & _ & _ & ->)].
  - by destruct (handleExportPrivateKey_state userId sent s)
      as [->|(u & mid & _ & _ & _ & _ & ->)].
  - destruct (onText_state_amount userId parts rpc now s)
      as [->|(u & tx & Hnan & Hpos & ->)]; [done|].
    intros v tx'. simpl. destruct (decide (u = v)) as [<-|Huv].
    + rewrite lookup_insert_eq. by intros [= <-].
    + rewrite lookup_insert_ne by done. apply Hv.
  - destruct (handleConfirmSendSol_state env userId rpcBalance rpcSend s)
      as [->|(u & _ & ->)]; [done|].
    intros v tx'. simpl. intros [_ H]%lookup_delete_Some. by apply (Hv v).
  - destruct (handleCancelSendSol_state userId s) as [->|(u & _ & ->)]; [done|].
    intros v tx'. simpl. intros [_ H]%lookup_delete_Some. by apply (Hv v).
  - unfold sweep. unfold_monad. simpl.
    intros v tx' [H _]%map_lookup_filter_Some. by apply (Hv v).
  - by destruct (fire_state h deleted s) as [->|(t & _ & _ & ->)].
  - done.
Qed.

Lemma amounts_valid_reachable s : reachable env s → amounts_valid s.
Proof.
  induction 1 as [|s ev _ IH]; [|by apply amounts_valid_step].
  intros u tx H. simpl in H. by rewrite lookup_empty in H.
Qed.

Lemma handles_fresh_step s ev : handles_fresh s → handles_fresh (step env s ev).
Proof.
  intros Hf. unfold step. destruct ev; simpl.
  - by destruct (handleGenerateWallet_state env userId entropy rpc s)
      as [->|(u & m & _ & _ & _ & _ & ->)].
  - destruct (handleExportPrivateKey_state userId sent s)
      as [->|(u & mid & _ & _ & _ & _ & ->)]; [done|].
    intros t. simpl. intros [Hin|Hin]%elem_of_app.
    + specialize (Hf t Hin). lia.
    + apply list_elem_of_singleton in Hin as ->. simpl. lia.
  - by destruct (onText_state env userId parts rpc now s)
      as [->|(u & tx & _ & _ & _ & _ & _ & ->)].
  - by destruct (handleConfirmSendSol_state env userId rpcBalance rpcSend s)
      as [->|(u & _ & ->)].
  - by destruct (handleCancelSendSol_state userId s) as [->|(u & _ & ->)].
  - done.
  - destruct (fire_state h deleted s) as [->|(t & _ & _ & ->)]; [done|].
    intros t'. simpl. intros [_ Hin]%list_elem_of_filter. by apply Hf.
  - unfold gracefulShutdown. unfold_monad. simpl.
    intros t'. intros [_ Hin]%list_elem_of_filter. by apply Hf.
Qed.

Lemma handles_fresh_reachable s : reachable env s → handles_fresh s.
Proof.
  induction 1 as [|s ev _ IH]; [|by apply handles_fresh_step].
  intros t H. simpl in H. by apply not_elem_of_nil in H.
Qed.

Lemma step_users_subseteq s ev : USERS s ⊆ USERS (step env s ev).
Proof.
  unfold step. destruct ev; simpl.
  - destruct (handleGenerateWallet_state env userId entropy rpc s)
      as [->|(v & m & _ & _ & Hnone & _ & ->)]; [done|]. simpl.
    by apply insert_subseteq.
  - by destruct (handleExportPrivateKey_state userId sent s)
      as [->|(v & mid & _ & _ & _ & _ & ->)].
  - by destruct (onText_state env userId parts rpc now s)
      as [->|(v & tx & _ & _ & _ & _ & _ & ->)].
  - by destruct (handleConfirmSendSol_state env userId rpcBalance rpcSend s)
      as [->|(v & _ & ->)].
  - by destruct (handleCancelSendSol_state userId s) as [->|(v & _ & ->)].
  - done.
  - by destruct (fire_state h deleted s) as [->|(t & _ & _ & ->)].
  - done.
Qed.

Lemma exec_users_subseteq evs s : USERS s ⊆ USERS (exec env evs s).1.
Proof.
  revert s. induction evs as [|ev evs IH]; intros s; simpl; [done|].
  pose proof (step_users_subseteq s ev) as Hs. unfold step, run_state in Hs.
  destruct (dispatch env ev s) as [[r s1] t1]. simpl in Hs.
  specialize (IH s1). destruct (exec env evs s1) as [s2 t2]. simpl in *.
  by etrans.
Qed.

(** X12: in every reachable state each stored proposal belongs to a user
    with a wallet and a non-empty id, has a recipient that parsed as a
    public key and an amount that is a number above zero; each entry of
    [PENDING_DELETIONS] belongs to a user with a wallet; and each
    scheduled callback is the one recorded for its user. *)
Theorem X12_reachable_entries_are_sound s :
  reachable env s →
  (∀ u tx, PENDING_TRANSACTIONS s !! u = Some tx →
     u ≠ "" ∧ is_Some (USERS s !! u) ∧
     valid_address env (recipientAddress tx) ∧
     isNaN (amount tx) = false ∧ num_le (amount tx) zero = false) ∧
  (∀ u h, PENDING_DELETIONS s !! u = Some h → u ≠ "" ∧ is_Some (USERS s !! u)) ∧
  (∀ t, t ∈ timers s →
     PENDING_DELETIONS s !! t_userId t = Some (handle t) ∧
     (handle t < nextTimer s)%nat).
Proof.
  intros Hr. pose proof (wf_reachable env s Hr) as Hwf.
  pose proof (amounts_valid_reachable s Hr) as Hv.
  pose proof (handles_fresh_reachable s Hr) as Hf.
  split; [|split].
  - intros u tx Hp. destruct (wf_transfer env s Hwf u tx Hp) as [Hk Ha].
    destruct (Hv u tx Hp) as [Hnan Hpos].
    split; [by apply (wf_users env s Hwf)|]. done.
  - intros u h Hd. pose proof (wf_deletion env s Hwf u h Hd) as Hk.
    split; [by apply (wf_users env s Hwf) | done].
  - intros t Hin. split; [by apply (wf_timer env s Hwf) | by apply Hf].
Qed.

(** X13: no sequence of events removes or replaces a wallet: the wallets
    only grow. *)
Theorem X13_wallets_only_grow (s : State) (evs : list Event) :
  USERS s ⊆ USERS (exec env evs s).1 ∧
  (∀ u kp, USERS s !! u = Some kp → USERS (exec env evs s).1 !! u = Some kp) ∧
  (size (USERS s) ≤ size (USERS (exec env evs s).1))%nat.
Proof.
  pose proof (exec_users_subseteq evs s) as Hsub.
  split; [done|]. split.
  - intros u kp Hk. by eapply lookup_weaken.
  - by apply map_subseteq_size.
Qed.

End MoreInvariants.

(** ** More on private-key reveals *)

Section MoreReveals.

Variable env : Env.

Lemma find_fresh_timer (l : list Timer) h u message_id :
  (∀ t, t ∈ l → handle t ≠ h) →
  List.find (fun t => Nat.eqb (handle t) h) (l ++ [mkTimer h u message_id])
  = Some (mkTimer h u message_id).
Proof.
  induction l as [|t l IH]; intros Hl; simpl.
  - by rewrite Nat.eqb_refl.
  - assert (Nat.eqb (handle t) h = false) as ->.
    { apply Nat.eqb_neq, Hl, list_elem_of_here. }
    apply IH. intros t' Hin. apply Hl. by apply list_elem_of_further.
Qed.

Lemma filter_fresh_timer (l : list Timer) h u message_id :
  (∀ t, t ∈ l → handle t ≠ h) →
  filter (fun t' : Timer => handle t' ≠ h) (l ++ [mkTimer h u message_id]) = l.
Proof.
  intros Hl. rewrite filter_app.
  rewrite (filter_cons_False _ (mkTimer h u message_id)) by (simpl; intros H; by apply H).
  rewrite filter_nil, app_nil_r.
  induction l as [|t l IH]; [done|].
  rewrite filter_cons_True by (apply Hl, list_elem_of_here).
  f_equal. apply IH. intros t' Hin. apply Hl. by apply list_elem_of_further.
Qed.

(** X14: when the key-bearing message cannot be sent, nothing is
    recorded and nothing is scheduled: the user gets "Something went
    wrong!" and may ask again. *)
Theorem X14_export_send_failure s u kp error :
  u ≠ "" → USERS s !! u = Some kp → PENDING_DELETIONS s !! u = None →
  handleExportPrivateKey (Some u) (Throw error) s
  = (Ok tt, s,
     [answerCbQuery None;
      sendMessage (PrivateKey (secretKey kp)) u true;
      console_error "Error in export_private_key handler:" error;
      answerCbQuery (Some "Something went wrong!")]).
Proof.
  intros Hu Hk Hd. unfold handleExportPrivateKey. unfold_monad.
  rewrite (validateUserId_nonempty u Hu), Hk, Hd. reflexivity.
Qed.

(** X15: a reveal runs its full course: the export shows the secret key
    of the stored wallet, the callback with the handle it was given
    deletes exactly the message that carried the key, whether or not the
    deletion succeeds the state is afterwards the one before the export
    (but for the next handle), and the user can ask for the key again. *)
Theorem X15_reveal_cycle s u kp message_id deleted :
  reachable env s →
  USERS s !! u = Some kp →
  PENDING_DELETIONS s !! u = None →
  let s' := {| USERS := USERS s; PENDING_DELETIONS := PENDING_DELETIONS s;
               PENDING_TRANSACTIONS := PENDING_TRANSACTIONS s;
               timers := timers s; nextTimer := S (nextTimer s) |} in
  exec env [ExportPrivateKey (Some u) (Ok message_id);
            TimerFires (nextTimer s) deleted] s
  = (s',
     [answerCbQuery None;
      sendMessage (PrivateKey (secretKey kp)) u true;
      deleteMessage message_id;
      match deleted with
      | Ok _ => console_log "Auto-deleted private key message for user" u
      | Throw error => console_error "Failed to delete private key message:" error
      end]) ∧
  ∀ message_id',
    run_trace (handleExportPrivateKey (Some u) (Ok message_id')) s'
    = [answerCbQuery None; sendMessage (PrivateKey (secretKey kp)) u true].
Proof.
  intros Hr Hk Hd s'. pose proof (wf_reachable env s Hr) as Hwf.
  pose proof (handles_fresh_reachable env s Hr) as Hf.
  assert (u ≠ "") as Hu by (apply (wf_users env s Hwf); eauto).
  assert (∀ t, t ∈ timers s → handle t ≠ nextTimer s) as Hne.
  { intros t Hin. specialize (Hf t Hin). lia. }
  split.
  - simpl. unfold handleExportPrivateKey. unfold_monad.
    rewrite (validateUserId_nonempty u Hu), Hk, Hd. simpl.
    unfold fire, deletionCallback. unfold_monad. simpl.
    rewrite (find_fresh_timer (timers s) (nextTimer s) u message_id Hne).
    unfold set_PENDING_DELETIONS, set_timers. simpl.
    rewrite (filter_fresh_timer (timers s) (nextTimer s) u message_id Hne).
    destruct deleted as [[]|error]; simpl;
      rewrite delete_insert_eq, (delete_id _ _ Hd); reflexivity.
  - intros message_id'. unfold handleExportPrivateKey. unfold_monad.
    rewrite (validateUserId_nonempty u Hu). simpl. rewrite Hk, Hd. reflexivity.
Qed.

(** X16: the shutdown hook cancels exactly the scheduled deletions whose
    handle is recorded in [PENDING_DELETIONS] and leaves the records as
    they are: a callback survives if and only if no entry holds its
    handle.  So when every scheduled callback is the one recorded for
    its user none survives, and a handle that fires afterwards finds
    nothing to run. *)
Theorem X16_shutdown_cancels_recorded (s : State) :
  let s1 := step env s Shutdown in
  (∀ t, t ∈ timers s1
        ↔ t ∈ timers s ∧ ∀ u, PENDING_DELETIONS s !! u ≠ Some (handle t)) ∧
  USERS s1 = USERS s ∧
  PENDING_DELETIONS s1 = PENDING_DELETIONS s ∧
  PENDING_TRANSACTIONS s1 = PENDING_TRANSACTIONS s ∧
  ((∀ t, t ∈ timers s → PENDING_DELETIONS s !! t_userId t = Some (handle t)) →
   timers s1 = [] ∧ ∀ h deleted, fire h deleted s1 = (Ok tt, s1, [])).
Proof.
  intros s1.
  assert (∀ t, t ∈ timers s1
               ↔ t ∈ timers s ∧ ∀ u, PENDING_DELETIONS s !! u ≠ Some (handle t)) as Hchar.
  { intros t. unfold s1, step, gracefulShutdown. unfold_monad. simpl.
    rewrite list_elem_of_filter. split.
    - intros [Hnot Hin]. split; [done|]. intros u Hu. apply Hnot.
      apply list_elem_of_fmap. exists (u, handle t). split; [done|].
      by apply elem_of_map_to_list.
    - intros [Hin Hnone]. split; [|done].
      intros ([u h] & Hh & Hel)%list_elem_of_fmap. simpl in Hh. subst h.
      apply elem_of_map_to_list in Hel. by apply (Hnone u). }
  split; [exact Hchar|]. split; [done|]. split; [done|]. split; [done|].
  intros Hrec.
  assert (timers s1 = []) as Ht.
  { assert (∀ t, t ∈ timers s1 → False) as Hno.
    { intros t [Hin Hnone]%Hchar. by apply (Hnone (t_userId t)), Hrec. }
    clear Hchar. destruct (timers s1) as [|t l]; [done|].
    exfalso. apply (Hno t), list_elem_of_here. }
  split; [done|].
  intros h deleted. unfold fire. unfold_monad. by rewrite Ht.
Qed.

End MoreReveals.

(** ** More on provisioning and on the read-only handlers *)

Section MoreProvisioning.

Variable env : Env.

(** X17: when the entropy source fails nothing is stored; the user gets
    "Something went wrong!" and a later request with a working source
    provisions the wallet. *)
Theorem X17_entropy_failure s u error m rpc :
  u ≠ "" → USERS s !! u = None →
  handleGenerateWallet env (Some u) (Throw error) rpc s
  = (Ok tt, s,
     [answerCbQuery (Some "Generating wallet...");
      console_error "Error in generate_wallet handler:" error;
      answerCbQuery (Some "Something went wrong!")]) ∧
  USERS (run_state (handleGenerateWallet env (Some u) (Ok m) rpc)
           (run_state (handleGenerateWallet env (Some u) (Throw error) rpc) s)) !! u
  = Some (keypairFromMnemonic env m).
Proof.
  intros Hu Hk.
  assert (handleGenerateWallet env (Some u) (Throw error) rpc s
          = (Ok tt, s,
             [answerCbQuery (Some "Generating wallet...");
              console_error "Error in generate_wallet handler:" error;
              answerCbQuery (Some "Something went wrong!")])) as E.
  { unfold handleGenerateWallet. unfold_monad. unfold hasWallet.
    rewrite (validateUserId_nonempty u Hu). simpl. rewrite Hk. reflexivity. }
  split; [exact E|]. unfold run_state at 2. rewrite E. simpl.
  by apply generate_provisions.
Qed.

(** X18: the address announced when a wallet is generated is the one
    "View Address" shows after any later events, on a keyboard that no
    longer offers "Generate Wallet". *)
Theorem X18_view_address_after_generate s u m l evs :
  u ≠ "" → USERS s !! u = None →
  let kp := keypairFromMnemonic env m in
  run_trace (handleGenerateWallet env (Some u) (Ok m) (Ok l)) s
  = [answerCbQuery (Some "Generating wallet...");
     sendMessage (WalletGenerated (publicKey kp)
                    {| balance := lamportsToSol env l; lamports := l |} m) u true] ∧
  handleViewAddress (Some u)
    (USERS (exec env (GenerateWallet (Some u) (Ok m) (Ok l) :: evs) s).1)
  = [answerCb None; sendInfo (YourWalletAddress (publicKey kp)) (getKeyboard u true)].
Proof.
  intros Hu Hk kp.
  assert (handleGenerateWallet env (Some u) (Ok m) (Ok l) s
          = (Ok tt, set_USERS (insert u kp) s,
             [answerCbQuery (Some "Generating wallet...");
              sendMessage (WalletGenerated (publicKey kp)
                             {| balance := lamportsToSol env l; lamports := l |} m)
                u true])) as E.
  { unfold handleGenerateWallet. unfold_monad. unfold hasWallet.
    rewrite (validateUserId_nonempty u Hu). simpl. rewrite Hk. simpl.
    by rewrite lookup_insert_eq. }
  split; [unfold run_trace; by rewrite E|].
  simpl. rewrite E.
  assert (USERS (set_USERS (insert u kp) s) !! u = Some kp) as Hstored
    by apply lookup_insert_eq.
  destruct (exec_keeps_wallet env evs _ u kp Hstored) as [Hkept _].
  destruct (exec env evs (set_USERS (insert u kp) s)) as [s2 t2]. simpl in *.
  unfold handleViewAddress, hasWallet.
  by rewrite (validateUserId_nonempty u Hu), Hkept.
Qed.

(** X19: "Check User Map" reports the number of stored wallets; that
    number never goes down, goes up by exactly one when a user without a
    wallet is provisioned, and stays when the user already had one. *)
Theorem X19_total_users s u :
  u ≠ "" →
  (∀ v, v ≠ "" →
     handleCheckUserMap (Some v) (USERS s)
     = [answerCb None;
        sendInfo (TotalUsers (size (USERS s))) (getKeyboard v (hasWallet v (USERS s)))]) ∧
  (∀ evs, (size (USERS s) ≤ size (USERS (exec env evs s).1))%nat) ∧
  (∀ m rpc,
     size (USERS (run_state (handleGenerateWallet env (Some u) (Ok m) rpc) s))
     = if hasWallet u (USERS s) then size (USERS s) else S (size (USERS s))).
Proof.
  intros Hu. split; [|split].
  - intros v Hv. unfold handleCheckUserMap. by rewrite (validateUserId_nonempty v Hv).
  - intros evs. apply map_subseteq_size, exec_users_subseteq.
  - intros m rpc. unfold hasWallet.
    destruct (USERS s !! u) as [kp|] eqn:Hk.
    + unfold run_state. by rewrite (generate_existing env s u kp _ _ Hu Hk).
    + destruct (handleGenerateWallet_state env (Some u) (Ok m) rpc s)
        as [Hsame|(v & m' & [= <-] & _ & _ & _ & ->)].
      * destruct (generate_provisions env s u m rpc Hu) as [[kp Hkp] _].
        rewrite Hsame in Hkp. congruence.
      * simpl. by apply map_size_insert_None.
Qed.

End MoreProvisioning.

(** ** Buttons and routes *)

Section Routes.

Lemma strip_prefix_app p s rest :
  strip_prefix p s = Some rest → s = p +:+ rest.
Proof.
  revert s. induction p as [|a p IH]; intros s; simpl.
  - by intros [= ->].
  - destruct s as [|b s]; [done|].
    destruct (Ascii.eqb_spec a b) as [->|]; [|done].
    intros H. by rewrite (IH s H).
Qed.

Lemma append_colon_assoc (n rest : string) :
  (n +:+ ":") +:+ rest = n +:+ ":" +:+ rest.
Proof.
  induction n as [|c n IH]; [reflexivity|].
  change (String c ((n +:+ ":") +:+ rest) = String c (n +:+ ":" +:+ rest)).
  f_equal. exact IH.
Qed.

Lemma all_digits_nonempty_valid u :
  negb (String.eqb u "") && all_digits u = true →
  u ≠ "" ∧ all_digits u = true ∧ validateUserId (Some u) = true.
Proof.
  intros [Hne Hd]%andb_true_iff. apply negb_true_iff, String.eqb_neq in Hne.
  split; [done|]. split; [done|]. by destruct u.
Qed.

Lemma first_match_sound l data a u :
  first_match l data = Some (a, u) →
  data = action_name a +:+ ":" +:+ u ∧
  u ≠ "" ∧ all_digits u = true ∧ validateUserId (Some u) = true.
Proof.
  induction l as [|b l IH]; simpl; [done|].
  unfold match_action at 1.
  destruct (strip_prefix (action_name b +:+ ":") data) as [rest|] eqn:Hs; [|exact IH].
  destruct (negb (String.eqb rest "") && all_digits rest) eqn:Hd; [|exact IH].
  intros [= <- <-]. apply strip_prefix_app in Hs.
  split; [|by apply all_digits_nonempty_valid].
  rewrite Hs. apply append_colon_assoc.
Qed.

Lemma route_callback a u :
  u ≠ "" → all_digits u = true →
  route (action_name a +:+ ":" +:+ u) = Some (a, u).
Proof.
  intros Hu Hd.
  assert (negb (String.eqb u "") && all_digits u = true) as Hok.
  { rewrite Hd, andb_true_r. by apply negb_true_iff, String.eqb_neq. }
  destruct a; unfold route, actions, first_match, match_action; simpl;
    change ("" +:+ u) with u; by rewrite Hok.
Qed.

(** X20: every button of the keyboard and both buttons of the
    confirmation prompt carry callback data that the routes of [main]
    deliver to the handler the button names, with the user id the button
    was made for. *)
Theorem X20_buttons_reach_their_handlers userId userHasWallet b :
  userId ≠ "" → all_digits userId = true →
  b ∈ concat (getKeyboard userId userHasWallet) ++ concat (confirmKeyboard userId) →
  ∃ a, callback_data b = action_name a +:+ ":" +:+ userId ∧
       route (callback_data b) = Some (a, userId).
Proof.
  intros Hu Hd Hin.
  assert (∃ a, callback_data b = action_name a +:+ ":" +:+ userId) as [a Ha].
  { destruct userHasWallet; simpl in Hin;
      repeat (apply elem_of_cons in Hin as [->|Hin];
              [eexists ?[a]; simpl;
               first [ instantiate (a := generate_wallet); reflexivity
                     | instantiate (a := view_address); reflexivity
                     | instantiate (a := export_private_key); reflexivity
                     | instantiate (a := check_balance); reflexivity
                     | instantiate (a := transaction_history); reflexivity
                     | instantiate (a := request_airdrop); reflexivity
                     | instantiate (a := send_sol); reflexivity
                     | instantiate (a := check_user_map); reflexivity
                     | instantiate (a := confirm_send_sol); reflexivity
                     | instantiate (a := cancel_send_sol); reflexivity ]|]);
      by apply not_elem_of_nil in Hin. }
  exists a. split; [done|]. rewrite Ha. by apply route_callback.
Qed.

(** X21: whatever callback data a route accepts is the name of its
    action, a colon and a non-empty string of decimal digits, so the
    [validateUserId] guard at the head of a routed handler always
    passes. *)
Theorem X21_routed_user_id_is_valid data a u :
  route data = Some (a, u) →
  data = action_name a +:+ ":" +:+ u ∧
  u ≠ "" ∧ all_digits u = true ∧ validateUserId (Some u) = true.
Proof. apply first_match_sound. Qed.

End Routes.

(** ** The abbreviated signature *)

Section ShortSig.

Lemma substring_all n s :
  (String.length s ≤ n)%nat → String.substring 0 n s = s.
Proof.
  revert n. induction s as [|c s IH]; intros n Hn; simpl in *.
  - by destruct n.
  - destruct n as [|n]; [lia|]. simpl. f_equal. apply IH. lia.
Qed.

Lemma substring_head a r :
  String.substring 0 (String.length a) (a +:+ r) = a.
Proof.
  induction a as [|c a IH]; simpl.
  - by destruct r.
  - by rewrite IH.
Qed.

Lemma substring_tail r c :
  String.substring (String.length r) (String.length c) (r +:+ c) = c.
Proof.
  induction r as [|x r IH]; simpl; [|exact IH].
  by apply substring_all.
Qed.

Lemma length_append r c :
  String.length (r +:+ c) = (String.length r + String.length c)%nat.
Proof. induction r as [|x r IH]; simpl; [done | by rewrite IH]. Qed.

(** X22: the abbreviated signature is the first eight characters, three
    dots and the last eight characters of the signature; a signature of
    at most eight characters is therefore shown twice in full. *)
Theorem X22_shortSig (signature : string) :
  (∀ first rest rest' last,
     signature = first +:+ rest → signature = rest' +:+ last →
     String.length first = 8%nat → String.length last = 8%nat →
     shortSig signature = first +:+ "..." +:+ last) ∧
  ((String.length signature ≤ 8)%nat →
   shortSig signature = signature +:+ "..." +:+ signature).
Proof.
  split.
  - intros a r r' c Ha Hc Hla Hlc. unfold shortSig.
    rewrite Ha at 1. rewrite <- Hla at 1. rewrite substring_head.
    rewrite Hc. rewrite length_append, Hlc, Nat.add_sub.
    rewrite <- Hlc at 1. by rewrite substring_tail.
  - intros Hn. unfold shortSig.
    rewrite (substring_all 8 signature Hn).
    replace (String.length signature - 8)%nat with 0%nat by lia.
    by rewrite (substring_all 8 signature Hn).
Qed.

End ShortSig.

(** ** The further properties on concrete runs *)

Lemma with_wallet_keypair :
  USERS with_wallet !! alice
  = Some (keypairFromMnemonic sample_env "abandon ability able").
Proof. vm_compute. reflexivity. Qed.

Lemma half_sol_request : valid_request sample_env addr1 "0.5".
Proof. repeat split; first [discriminate | vm_compute; reflexivity]. Qed.

(** A sweep 300001 ms after the proposal of [alice] was stored. *)
Lemma X2_witness :
  alice ≠ "" ∧
  PENDING_TRANSACTIONS with_proposal !! alice = Some half_sol_to_addr1 ∧
  300000 < 301001 - timestamp half_sol_to_addr1 ∧
  PENDING_TRANSACTIONS (step sample_env with_proposal (Sweep 301001)) !! alice = None.
Proof.
  assert (300000 < 301001 - timestamp half_sol_to_addr1) as Hold by (vm_compute; reflexivity).
  split; [exact alice_nonempty|]. split; [exact with_proposal_pending|].
  split; [exact Hold|].
  apply (X2_swept_proposal_cannot_be_confirmed sample_env with_proposal alice
           half_sol_to_addr1 301001 (Ok 0) (Ok "unused")
           alice_nonempty with_proposal_pending Hold).
Defined.

(** Confirming the proposal of [alice] with the node unreachable. *)
Lemma X3_witness :
  reachable sample_env with_proposal ∧
  PENDING_TRANSACTIONS with_proposal !! alice = Some half_sol_to_addr1 ∧
  PENDING_TRANSACTIONS
    (run_state (handleConfirmSendSol sample_env (Some alice)
                  (Throw (mkError "timeout")) (Ok "unused")) with_proposal)
    !! alice = None.
Proof.
  split; [exact with_proposal_reachable|]. split; [exact with_proposal_pending|].
  apply (X3_confirm_consumes_proposal sample_env with_proposal alice half_sol_to_addr1
           (Throw (mkError "timeout")) (Ok "unused")
           with_proposal_reachable with_proposal_pending).
Defined.

(** The submission of the proposal of [alice] fails. *)
Lemma X4_witness :
  reachable sample_env with_proposal ∧
  PENDING_TRANSACTIONS with_proposal !! alice = Some half_sol_to_addr1 ∧
  handleConfirmSendSol sample_env (Some alice) (Ok 1000000000)
    (Throw (mkError "blockhash not found")) with_proposal
  = (Ok tt, set_PENDING_TRANSACTIONS (delete alice) with_proposal,
     [answerCbQuery (Some "Processing transaction...");
      console_error "Error sending SOL:" (mkError "blockhash not found");
      console_error "SOL transfer error:"
        (mkError "Failed to send SOL. Please check your balance and try again.");
      editMessageText FailedToSend]).
Proof.
  split; [exact with_proposal_reachable|]. split; [exact with_proposal_pending|].
  apply (proj2 (X4_confirm_failures sample_env with_proposal alice half_sol_to_addr1
                  with_proposal_reachable with_proposal_pending)).
  vm_compute. reflexivity.
Defined.

(** [alice] proposes 0.5 SOL to [addr1] and confirms. *)
Lemma X5_witness :
  valid_request sample_env addr1 "0.5" ∧
  exec sample_env
    [Text (Some alice) [addr1; "0.5"] (Ok 1000000000) 1000;
     ConfirmSendSol (Some alice) (Ok 1000000000) (Ok "5VERv8NMvzbJ")] with_wallet
  = (with_wallet,
     [reply (ConfirmTransfer (Fin (1 # 2)) addr1 (lamportsToSol sample_env 1000000000));
      answerCbQuery (Some "Processing transaction...");
      editMessageText (SolSent (Fin (1 # 2)) addr1 "5VERv8NMvzbJ")]).
Proof.
  split; [exact half_sol_request|].
  apply (X5_propose_then_confirm sample_env with_wallet alice _ addr1 "0.5"
           1000000000 1000 1000000000 "5VERv8NMvzbJ"
           alice_nonempty with_wallet_keypair);
    first [exact half_sol_request | vm_compute; reflexivity].
Defined.

(** [alice] cancels and then asks for 0.7 SOL to [addr2]. *)
Lemma X6_witness :
  reachable sample_env with_proposal ∧
  PENDING_TRANSACTIONS with_proposal !! alice = Some half_sol_to_addr1 ∧
  PENDING_TRANSACTIONS
    (run_state (onText sample_env (Some alice) [addr2; "0.7"] (Ok 1000000000) 5000)
       (step sample_env with_proposal (CancelSendSol (Some alice)))) !! alice
  = Some {| recipientAddress := addr2; amount := Fin (7 # 10); timestamp := 5000 |}.
Proof.
  split; [exact with_proposal_reachable|]. split; [exact with_proposal_pending|].
  apply (proj2 (X6_cancel_then_confirm_or_propose sample_env with_proposal alice
                  half_sol_to_addr1 with_proposal_reachable with_proposal_pending)
           addr2 "0.7" 1000000000 5000).
  - repeat split; first [discriminate | vm_compute; reflexivity].
  - vm_compute. reflexivity.
Defined.

(** A text of three parts. *)
Lemma X7_witness :
  length ["send"; addr1; "0.5"] ≠ 2%nat ∧
  onText sample_env (Some alice) ["send"; addr1; "0.5"] (Ok 1000000000) 1000 with_wallet
  = (Ok tt, with_wallet, []).
Proof.
  assert (length ["send"; addr1; "0.5"] ≠ 2%nat) as Hlen by (simpl; lia).
  split; [exact Hlen|].
  apply (X7_text_ignored sample_env with_wallet (Some alice) ["send"; addr1; "0.5"]
           (Ok 1000000000) 1000 (or_intror Hlen)).
Defined.

(** An amount of zero, to a recipient that is no address. *)
Lemma X8_witness :
  isNaN (parseFloat sample_env "0") || num_le (parseFloat sample_env "0") zero = true ∧
  onText sample_env (Some alice) ["nowhere"; "0"] (Throw (mkError "timeout")) 1000
    with_wallet
  = (Ok tt, with_wallet, [reply InvalidAmount]).
Proof.
  assert (isNaN (parseFloat sample_env "0") || num_le (parseFloat sample_env "0") zero
          = true) as Hbad by (vm_compute; reflexivity).
  split; [exact Hbad|].
  apply (X8_invalid_amount sample_env with_wallet alice _ "nowhere" "0"
           (Throw (mkError "timeout")) 1000 alice_nonempty with_wallet_keypair);
    first [discriminate | exact Hbad].
Defined.

(** A recipient that is no address. *)
Lemma X9_witness :
  newPublicKey sample_env "nowhere" = Throw (mkError "Invalid public key input") ∧
  onText sample_env (Some alice) ["nowhere"; "0.5"] (Ok 1000000000) 1000 with_wallet
  = (Ok tt, with_wallet,
     [console_error "SOL transfer preparation error:"
        (mkError "Invalid public key input");
      reply InvalidRecipientRetry]).
Proof.
  assert (newPublicKey sample_env "nowhere" = Throw (mkError "Invalid public key input"))
    as Hpk by (vm_compute; reflexivity).
  split; [exact Hpk|].
  apply (X9_invalid_recipient sample_env with_wallet alice _ "nowhere" "0.5"
           (mkError "Invalid public key input") (Ok 1000000000) 1000
           alice_nonempty with_wallet_keypair);
    first [discriminate | exact Hpk | vm_compute; reflexivity].
Defined.

(** The node is unreachable when [alice] proposes. *)
Lemma X10_witness :
  PENDING_TRANSACTIONS with_wallet !! alice = None ∧
  onText sample_env (Some alice) [addr1; "0.5"] (Throw (mkError "timeout")) 1000
    with_wallet
  = (Ok tt, with_wallet,
     [console_error "Error fetching balance:" (mkError "timeout");
      console_error "SOL transfer preparation error:"
        (mkError "Failed to fetch balance. Please try again later.");
      reply InvalidTransactionFormat]).
Proof.
  assert (PENDING_TRANSACTIONS with_wallet !! alice = None) as Hp
    by (vm_compute; reflexivity).
  split; [exact Hp|].
  apply (X10_propose_balance_failure sample_env with_wallet alice _ addr1 "0.5"
           (mkError "timeout") 1000 alice_nonempty with_wallet_keypair Hp
           half_sol_request).
Defined.

(** A text with two spaces between the address and the amount. *)
Lemma X11_witness :
  starts_with (Ascii.ascii_of_nat 32) (addr1 +:+ "  0.5") = false ∧
  ends_with (Ascii.ascii_of_nat 32) (addr1 +:+ "  0.5") = false ∧
  reply InvalidFormat
    ∉ run_trace (onTextMessage sample_env (Some alice) (addr1 +:+ "  0.5")
                   (Ok 1000000000) 1000) with_wallet.
Proof.
  assert (starts_with (Ascii.ascii_of_nat 32) (addr1 +:+ "  0.5") = false) as Hs
    by (vm_compute; reflexivity).
  assert (ends_with (Ascii.ascii_of_nat 32) (addr1 +:+ "  0.5") = false) as He
    by (vm_compute; reflexivity).
  split; [exact Hs|]. split; [exact He|].
  apply (X11_invalid_format_unreachable sample_env with_wallet (Some alice)
           (addr1 +:+ "  0.5") (Ok 1000000000) 1000 Hs He).
Defined.

(** The proposal of [alice] is sound. *)
Lemma X12_witness :
  reachable sample_env with_proposal ∧
  valid_address sample_env (recipientAddress half_sol_to_addr1) ∧
  num_le (amount half_sol_to_addr1) zero = false.
Proof.
  split; [exact with_proposal_reachable|].
  destruct (proj1 (X12_reachable_entries_are_sound sample_env with_proposal
                     with_proposal_reachable) alice half_sol_to_addr1
              with_proposal_pending) as (_ & _ & Ha & _ & Hpos).
  split; [exact Ha | exact Hpos].
Defined.

(** Telegram refuses the key-bearing message of [alice]. *)
Lemma X14_witness :
  PENDING_DELETIONS with_wallet !! alice = None ∧
  run_state (handleExportPrivateKey (Some alice) (Throw (mkError "chat not found")))
    with_wallet = with_wallet.
Proof.
  assert (PENDING_DELETIONS with_wallet !! alice = None) as Hd
    by (vm_compute; reflexivity).
  split; [exact Hd|]. unfold run_state.
  by rewrite (X14_export_send_failure with_wallet alice _ (mkError "chat not found")
                alice_nonempty with_wallet_keypair Hd).
Defined.

(** [alice] exports her key as message 7, and the deletion fails. *)
Lemma X15_witness :
  reachable sample_env with_wallet ∧
  PENDING_DELETIONS with_wallet !! alice = None ∧
  (exec sample_env
     [ExportPrivateKey (Some alice) (Ok 7);
      TimerFires 0 (Throw (mkError "message to delete not found"))] with_wallet).2
  = [answerCbQuery None;
     sendMessage (PrivateKey []) alice true;
     deleteMessage 7;
     console_error "Failed to delete private key message:"
       (mkError "message to delete not found")].
Proof.
  assert (PENDING_DELETIONS with_wallet !! alice = None) as Hd
    by (vm_compute; reflexivity).
  split; [exact with_wallet_reachable|]. split; [exact Hd|].
  destruct (X15_reveal_cycle sample_env with_wallet alice _ 7
              (Throw (mkError "message to delete not found"))
              with_wallet_reachable with_wallet_keypair Hd) as [E _].
  change (nextTimer with_wallet) with 0%nat in E. by rewrite E.
Defined.

(** Shutdown while the key message of [alice] awaits deletion: nothing
    stays scheduled.  Shutdown after her two overlapping exports: the
    first callback, whose handle the record no longer holds, stays
    scheduled. *)
Lemma X16_witness :
  timers (step sample_env with_reveal Shutdown) = [] ∧
  mkTimer 0 alice 7 ∈ timers (step sample_env after_two_exports Shutdown).
Proof.
  split.
  - apply (proj2 (proj2 (proj2 (proj2
             (X16_shutdown_cancels_recorded sample_env with_reveal))))).
    intros t Hin. change (timers with_reveal) with [mkTimer 0 alice 7] in Hin.
    apply list_elem_of_singleton in Hin as ->. vm_compute. reflexivity.
  - apply (proj1 (X16_shutdown_cancels_recorded sample_env after_two_exports)).
    split.
    + change (timers after_two_exports) with [mkTimer 0 alice 7; mkTimer 1 alice 8].
      apply list_elem_of_here.
    + intros u Hu.
      assert (PENDING_DELETIONS after_two_exports = {[alice := 1%nat]}) as E
        by (vm_compute; reflexivity).
      rewrite E in Hu. apply lookup_singleton_Some in Hu as [_ Hu]. discriminate Hu.
Defined.

(** The entropy source fails on the first request of [alice]. *)
Lemma X17_witness :
  alice ≠ "" ∧ USERS initial !! alice = None ∧
  run_state (handleGenerateWallet sample_env (Some alice)
               (Throw (mkError "entropy")) (Ok 0)) initial = initial.
Proof.
  assert (USERS initial !! alice = None) as Hk by (vm_compute; reflexivity).
  split; [exact alice_nonempty|]. split; [exact Hk|].
  destruct (X17_entropy_failure sample_env initial alice (mkError "entropy")
              "abandon ability able" (Ok 0) alice_nonempty Hk) as [E _].
  unfold run_state. by rewrite E.
Defined.

(** [alice] views her address after proposing a transfer. *)
Lemma X18_witness :
  alice ≠ "" ∧ USERS initial !! alice = None ∧
  handleViewAddress (Some alice) (USERS with_proposal)
  = [answerCb None;
     sendInfo (YourWalletAddress "key of abandon ability able")
       (getKeyboard alice true)].
Proof.
  assert (USERS initial !! alice = None) as Hk by (vm_compute; reflexivity).
  split; [exact alice_nonempty|]. split; [exact Hk|].
  apply (proj2 (X18_view_address_after_generate sample_env initial alice
                  "abandon ability able" 0
                  [Text (Some alice) [addr1; "0.5"] (Ok 1000000000) 1000]
                  alice_nonempty Hk)).
Defined.

(** One wallet is stored; after [bob] is provisioned there are two. *)
Lemma X19_witness :
  bob ≠ "" ∧
  size (USERS (run_state (handleGenerateWallet sample_env (Some bob)
                            (Ok "zoo zone zero") (Ok 0)) with_wallet)) = 2%nat.
Proof.
  assert (bob ≠ "") as Hb by discriminate.
  split; [exact Hb|].
  rewrite (proj2 (proj2 (X19_total_users sample_env with_wallet bob Hb))
             "zoo zone zero" (Ok 0)).
  vm_compute. reflexivity.
Defined.

(** The "Send SOL" button of [alice]. *)
Lemma X20_witness :
  alice ≠ "" ∧ all_digits alice = true ∧
  ∃ a, route (callback_data (callback "Send SOL" "send_sol" alice)) = Some (a, alice).
Proof.
  assert (all_digits alice = true) as Hd by (vm_compute; reflexivity).
  split; [exact alice_nonempty|]. split; [exact Hd|].
  destruct (X20_buttons_reach_their_handlers alice true
              (callback "Send SOL" "send_sol" alice) alice_nonempty Hd)
    as (a & _ & Hroute).
  - apply elem_of_app. left. simpl.
    do 5 apply list_elem_of_further. apply list_elem_of_here.
  - by exists a.
Defined.

(** The callback data of a confirm button. *)
Lemma X21_witness :
  route "confirm_send_sol:42" = Some (confirm_send_sol, "42") ∧
  validateUserId (Some "42") = true.
Proof.
  assert (route "confirm_send_sol:42" = Some (confirm_send_sol, "42")) as Hr
    by (vm_compute; reflexivity).
  split; [exact Hr|].
  apply (X21_routed_user_id_is_valid "confirm_send_sol:42" confirm_send_sol "42" Hr).
Defined.

(** A three-character signature and an eighteen-character one. *)
Lemma X22_witness :
  shortSig "abc" = "abc...abc" ∧
  shortSig "5VERv8NMvzbJMEkV8x" = "5VERv8NM...bJMEkV8x".
Proof.
  split.
  - apply (proj2 (X22_shortSig "abc")). simpl. lia.
  - apply (proj1 (X22_shortSig "5VERv8NMvzbJMEkV8x") "5VERv8NM" "vzbJMEkV8x"
             "5VERv8NMvz" "bJMEkV8x"); reflexivity.
Defined.

(** ** Users do not interfere *)

Section Isolation.

Variable env : Env.

(** X23: a request of one user leaves the wallet, the pending reveal,
    the scheduled retractions and the pending proposal of every other
    user as they are. *)
Theorem X23_requests_touch_one_user s ev u v :
  event_user ev = Some u → v ≠ u →
  USERS (step env s ev) !! v = USERS s !! v ∧
  PENDING_DELETIONS (step env s ev) !! v = PENDING_DELETIONS s !! v ∧
  PENDING_TRANSACTIONS (step env s ev) !! v = PENDING_TRANSACTIONS s !! v ∧
  filter (fun t : Timer => t_userId t = v) (timers (step env s ev))
  = filter (fun t : Timer => t_userId t = v) (timers s).
Proof.
  intros Hev Hv. unfold step. destruct ev; simpl in *; try discriminate Hev; subst.
  - destruct (handleGenerateWallet_state env (Some u) entropy rpc s)
      as [->|(u' & m & [= <-] & _ & _ & _ & ->)]; [done|]. simpl.
    by rewrite lookup_insert_ne.
  - destruct (handleExportPrivateKey_state (Some u) sent s)
      as [->|(u' & mid & [= <-] & _ & _ & _ & ->)]; [done|]. simpl.
    rewrite lookup_insert_ne by done. split; [done|]. split; [done|]. split; [done|].
    rewrite filter_app, filter_cons_False, filter_nil, app_nil_r; [done|].
    simpl. congruence.
  - destruct (onText_state env (Some u) parts rpc now s)
      as [->|(u' & tx & [= <-] & _ & _ & _ & _ & ->)]; [done|]. simpl.
    by rewrite lookup_insert_ne.
  - destruct (handleConfirmSendSol_state env (Some u) rpcBalance rpcSend s)
      as [->|(u' & [= <-] & ->)]; [done|]. simpl.
    by rewrite lookup_delete_ne.
  - destruct (handleCancelSendSol_state (Some u) s)
      as [->|(u' & [= <-] & ->)]; [done|]. simpl.
    by rewrite lookup_delete_ne.
Qed.

End Isolation.

(** [bob] cancels while [alice] has a proposal pending. *)
Lemma X23_witness :
  event_user (CancelSendSol (Some bob)) = Some bob ∧ alice ≠ bob ∧
  PENDING_TRANSACTIONS (step sample_env with_proposal (CancelSendSol (Some bob)))
    !! alice = Some half_sol_to_addr1.
Proof.
  assert (alice ≠ bob) as Hne by discriminate.
  split; [reflexivity|]. split; [exact Hne|].
  destruct (X23_requests_touch_one_user sample_env with_proposal
              (CancelSendSol (Some bob)) bob alice eq_refl Hne) as (_ & _ & Hp & _).
  rewrite Hp. exact with_proposal_pending.
Defined.
